(** * Universal Data Assistant: the question-answering pipeline

    A shallow embedding of the Python modules that [scaffold.py] writes out
    ([app/graph], [app/graph/nodes], [app/utils], [app/dlq]) and the
    properties of the pipeline stated over it.

    Conventions of the embedding:
    - a Python [str] is a [string]; [lower], [split], [count] and [in] are
      modelled on ASCII text (the corpus is ASCII);
    - a Python [float] is a binary64 primitive float;
    - a [dict] with a fixed set of keys is a record whose fields are
      options: [None] is an absent key, as [d.get(k)] reads it;
    - every stage appends its record to the list it read from the state and
      hands the same list back; the final state only ever sees the list
      after all appends, so the trail is modelled as a value. *)

From Stdlib Require Import String Ascii List ZArith Lia Bool Floats Uint63.
From Stdlib Require Import Permutation Sorted PeanoNat Decimal DecimalString.
Import ListNotations.
Open Scope string_scope.

Set Warnings "-inexact-float".

(** ** Python string primitives *)

Module PyStr.

Definition is_upper (c : ascii) : bool :=
  let n := nat_of_ascii c in (65 <=? n)%nat && (n <=? 90)%nat.

Definition lower_ascii (c : ascii) : ascii :=
  if is_upper c then ascii_of_nat (nat_of_ascii c + 32) else c.

(** [s.lower()] *)
Fixpoint lower (s : string) : string :=
  match s with
  | EmptyString => EmptyString
  | String c s' => String (lower_ascii c) (lower s')
  end.

(** [c.isspace()] on ASCII: TAB, LF, VT, FF, CR, FS, GS, RS, US, SPACE. *)
Definition is_space (c : ascii) : bool :=
  let n := nat_of_ascii c in
  ((9 <=? n)%nat && (n <=? 13)%nat) || ((28 <=? n)%nat && (n <=? 32)%nat).

Definition is_empty (s : string) : bool :=
  match s with EmptyString => true | _ => false end.

(** [s.split()]: maximal runs of non-space characters, [cur] being the
    run read so far. *)
Fixpoint split_aux (cur s : string) : list string :=
  match s with
  | EmptyString => if is_empty cur then [] else [cur]
  | String c s' =>
      if is_space c
      then (if is_empty cur then split_aux EmptyString s'
            else cur :: split_aux EmptyString s')
      else split_aux (cur ++ String c EmptyString) s'
  end.

Definition split (s : string) : list string := split_aux EmptyString s.

(** [sub in s] *)
Fixpoint contains (sub s : string) : bool :=
  prefix sub s ||
  match s with
  | EmptyString => false
  | String _ s' => contains sub s'
  end.

(** [s.count(sub)]: occurrences found left to right, the search resuming
    after each one ([skip] characters of the last occurrence are still to
    be passed). *)
Fixpoint count_from (skip : nat) (sub s : string) : nat :=
  match s with
  | EmptyString => 0
  | String _ s' =>
      match skip with
      | S k => count_from k sub s'
      | O =>
          if prefix sub s
          then S (count_from (String.length sub - 1) sub s')
          else count_from 0 sub s'
      end
  end.

Definition count (s sub : string) : nat :=
  if is_empty sub then S (String.length s) else count_from 0 sub s.

(** [sep.join(l)] *)
Definition join (sep : string) (l : list string) : string :=
  String.concat sep l.

(** [str(n)] for a non-negative [int]. *)
Definition str_of_nat (n : nat) : string :=
  NilEmpty.string_of_uint (Nat.to_uint n).

(** [s.strip()] is non-empty. *)
Fixpoint has_non_space (s : string) : bool :=
  match s with
  | EmptyString => false
  | String c s' => negb (is_space c) || has_non_space s'
  end.

(** [any(k in q for k in ks)] *)
Definition any_in (ks : list string) (q : string) : bool :=
  existsb (fun k => contains k q) ks.

End PyStr.

(** [float(n)] for a non-negative [int] below [2^63]. *)
Definition float_of_nat (n : nat) : float :=
  PrimFloat.of_uint63 (Uint63.of_Z (Z.of_nat n)).

(** [x.get(k) or d] *)
Definition get_or {A : Type} (x : option A) (d : A) : A :=
  match x with Some a => a | None => d end.

Definition LF : string := String (ascii_of_nat 10) EmptyString.

(** ** Data model ([app/graph/state.py] and the dicts inside it) *)

(** An entry of the retriever's corpus: all five keys are there. *)
Record Doc := mkDoc {
  d_doc_id : string;
  d_heading : string;
  d_text : string;
  d_source_uri : string;
  d_security_tags : list string
}.

(** An evidence item as the stages read it, key by key with [e.get]. *)
Record Evidence := mkEvidence {
  doc_id : option string;
  heading : option string;
  text : option string;
  source_uri : option string;
  security_tags : option (list string);
  score : option float
}.

Record Span := mkSpan {
  span_start : Z;
  span_end : Z;
  entropy : option float
}.

Record Uncertainty := mkUncertainty {
  overall : option float;
  spans : list Span
}.

Record ValidationReport := mkReport {
  faithful : option bool;
  checks : list string
}.

(** Values held by the records of the audit trail. *)
Inductive pyval :=
| VNone
| VBool (b : bool)
| VInt (z : Z)
| VFloat (f : float)
| VStr (s : string).

Definition AuditRecord := list (string * pyval).

(** [GraphState], a [TypedDict] with [total=False]; a stage's update is a
    dict of the same shape. *)
Record GraphState := mkState {
  user_query : option string;
  intent : option string;
  retrieved_evidence : option (list Evidence);
  draft_answer : option string;
  citations : option (list string);
  uncertainty : option Uncertainty;
  validation_reports : option ValidationReport;
  decision : option string;
  audit_trail : option (list AuditRecord)
}.

Definition override {A : Type} (old new : option A) : option A :=
  match new with Some _ => new | None => old end.

(** [state.update(updates)] *)
Definition update (s u : GraphState) : GraphState :=
  mkState
    (override (user_query s) (user_query u))
    (override (intent s) (intent u))
    (override (retrieved_evidence s) (retrieved_evidence u))
    (override (draft_answer s) (draft_answer u))
    (override (citations s) (citations u))
    (override (uncertainty s) (uncertainty u))
    (override (validation_reports s) (validation_reports u))
    (override (decision s) (decision u))
    (override (audit_trail s) (audit_trail u)).

Definition isSome {A : Type} (x : option A) : bool :=
  match x with Some _ => true | None => false end.

(** Truth value of an update: a dict is true when it has a key. *)
Definition truthy (u : GraphState) : bool :=
  isSome (user_query u) || isSome (intent u) || isSome (retrieved_evidence u)
  || isSome (draft_answer u) || isSome (citations u) || isSome (uncertainty u)
  || isSome (validation_reports u) || isSome (decision u)
  || isSome (audit_trail u).

(** [state.get("audit_trail", [])] followed by [audit.append(rec)]. *)
Definition audit_of (s : GraphState) : list AuditRecord :=
  get_or (audit_trail s) [].

Definition audit_append (s : GraphState) (r : AuditRecord) : list AuditRecord :=
  List.app (audit_of s) [r].

(** The ["node"] entry of an audit record. *)
Fixpoint lookup (k : string) (r : AuditRecord) : option pyval :=
  match r with
  | [] => None
  | (k', v) :: r' => if String.eqb k k' then Some v else lookup k r'
  end.

Definition node_name (r : AuditRecord) : option pyval := lookup "node" r.

(** ** Utilities ([app/utils/citations.py], [app/utils/uncertainty.py]) *)

(** [e.get("source_uri") or e.get("doc_id", "unknown")] *)
Definition citation_src (e : Evidence) : string :=
  match source_uri e with
  | Some s => if PyStr.is_empty s then get_or (doc_id e) "unknown" else s
  | None => get_or (doc_id e) "unknown"
  end.

(** The [" :: heading"] part, added under [if heading:]. *)
Definition citation_suffix (e : Evidence) : string :=
  match heading e with
  | Some h => if PyStr.is_empty h then "" else " :: " ++ h
  | None => ""
  end.

Definition citation (idx : nat) (e : Evidence) : string :=
  "[" ++ PyStr.str_of_nat idx ++ "] " ++ citation_src e ++ citation_suffix e.

(** The loop over [enumerate(evidence, start=idx)]. *)
Fixpoint format_citations_from (idx : nat) (evidence : list Evidence)
  : list string :=
  match evidence with
  | [] => []
  | e :: rest => citation idx e :: format_citations_from (S idx) rest
  end.

Definition format_citations (evidence : list Evidence) : list string :=
  format_citations_from 1 evidence.

(** [sum(s.get("entropy", 0.0) for s in spans)], added up from [0] in the
    order of the list, each addition rounded to binary64 (an interpreter
    that sums floats with error compensation can differ from this in the
    last bit on long lists). *)
Definition entropy_sum (sp : list Span) : float :=
  fold_left (fun acc s => (acc + get_or (entropy s) 0.0)%float) sp 0%float.

Definition aggregate_uncertainty (sp : list Span) : Uncertainty :=
  match sp with
  | [] => mkUncertainty (Some 0.0%float) []
  | _ =>
      mkUncertainty
        (Some (entropy_sum sp / float_of_nat (Nat.max (List.length sp) 1))%float)
        sp
  end.

(** ** The stages ([app/graph/nodes]) *)

Definition router_node (state : GraphState) : GraphState :=
  let q := PyStr.lower (get_or (user_query state) "") in
  let intent0 := "lookup" in
  let intent1 :=
    if PyStr.any_in ["why"; "how"; "compare"; "design"; "tradeoff"] q
    then "synthesis" else intent0 in
  let intent2 :=
    if PyStr.any_in ["policy"; "gdpr"; "security"; "compliance"] q
    then "policy" else intent1 in
  let audit := audit_append state [("node", VStr "router"); ("intent", VStr intent2)] in
  mkState None (Some intent2) None None None None None None (Some audit).

Definition CORPUS : list Doc :=
  [ mkDoc "doc-1" "UDA Overview"
      "Universal Data Assistant provides precise, cited answers using RAG."
      "internal://docs/uda/overview.md" ["public"];
    mkDoc "doc-2" "Uncertainty Handling"
      "UDA tracks token-level uncertainty via logprob entropy and span aggregation."
      "internal://docs/uda/uncertainty.md" ["public"] ].

(** [terms]: the tokens of the lowercased query longer than two. *)
Definition query_terms (query : string) : list string :=
  filter (fun t => (2 <? String.length t)%nat) (PyStr.split (PyStr.lower query)).

(** [sum(item["text"].lower().count(t) for t in terms)] *)
Definition doc_score (terms : list string) (item : Doc) : nat :=
  list_sum (map (fun t => PyStr.count (PyStr.lower (d_text item)) t) terms).

(** The loop that fills [scored]: pairs [(score, item)] with [score > 0],
    in the order of the corpus. *)
Definition scored_of (corpus : list Doc) (terms : list string)
  : list (nat * Doc) :=
  flat_map
    (fun item =>
       let sc := doc_score terms item in
       if (0 <? sc)%nat then [(sc, item)] else [])
    corpus.

(** [scored.sort(reverse=True, key=lambda x: x[0])]: Python's sort is
    stable, also under [reverse]; an element goes behind the ones with a
    larger key and before the later ones with the same key. *)
Fixpoint insert_desc {A : Type} (x : nat * A) (l : list (nat * A))
  : list (nat * A) :=
  match l with
  | [] => [x]
  | y :: l' => if (fst x <? fst y)%nat then y :: insert_desc x l' else x :: l
  end.

Fixpoint sort_desc {A : Type} (l : list (nat * A)) : list (nat * A) :=
  match l with
  | [] => []
  | x :: l' => insert_desc x (sort_desc l')
  end.

(** [r = dict(item); r["score"] = float(score)] *)
Definition with_score (p : nat * Doc) : Evidence :=
  let item := snd p in
  mkEvidence (Some (d_doc_id item)) (Some (d_heading item))
    (Some (d_text item)) (Some (d_source_uri item))
    (Some (d_security_tags item)) (Some (float_of_nat (fst p))).

Definition keyword_match_in (corpus : list Doc) (query : string) (k : nat)
  : list Evidence :=
  if PyStr.is_empty query then []
  else
    let terms := query_terms query in
    let scored := sort_desc (scored_of corpus terms) in
    map with_score (firstn k scored).

Definition simple_keyword_match (query : string) (k : nat) : list Evidence :=
  keyword_match_in CORPUS query k.

Definition retriever_node (state : GraphState) : GraphState :=
  let query := get_or (user_query state) "" in
  let evidence := simple_keyword_match query 5 in
  let audit :=
    audit_append state
      [("node", VStr "retriever"); ("hits", VInt (Z.of_nat (List.length evidence)))] in
  mkState None None (Some evidence) None None None None None (Some audit).

Definition ranker_node (state : GraphState) : GraphState :=
  let ev := get_or (retrieved_evidence state) [] in
  let audit :=
    audit_append state
      [("node", VStr "ranker"); ("kept", VInt (Z.of_nat (List.length ev)))] in
  mkState None None (Some ev) None None None None None (Some audit).

Definition ABSTENTION : string :=
  "I don't have enough information to answer confidently. "
  ++ "Please provide more details or ingest relevant documents.".

(** [f"{e.get('text')}"]: an absent text prints as [None]. *)
Definition fmt_text (e : Evidence) : string := get_or (text e) "None".

Definition quote_line (e : Evidence) : string := "- " ++ fmt_text e.

(** The two branches of [if not ev], each setting the draft and the
    citations. *)
Definition draft_and_citations (query : string) (ev : list Evidence)
  : string * list string :=
  match ev with
  | [] => (ABSTENTION, [])
  | _ =>
      let lines :=
        List.app ["Q: " ++ query; "A (grounded):"]
                 (map quote_line (firstn 2 ev)) in
      (PyStr.join LF lines, format_citations (firstn 2 ev))
  end.

Definition answerer_node (state : GraphState) : GraphState :=
  let query := get_or (user_query state) "" in
  let ev := get_or (retrieved_evidence state) [] in
  let '(draft, cites) := draft_and_citations query ev in
  let audit :=
    audit_append state
      [("node", VStr "answerer"); ("len", VInt (Z.of_nat (String.length draft)))] in
  mkState None None None (Some draft) (Some cites) None None None (Some audit).

Definition opt_float_val (x : option float) : pyval :=
  match x with Some f => VFloat f | None => VNone end.

Definition uncertainty_node (state : GraphState) : GraphState :=
  let ev := get_or (retrieved_evidence state) [] in
  let sp :=
    match ev with
    | _ :: _ => [mkSpan 0 10 (Some 0.1%float)]
    | [] => [mkSpan 0 10 (Some 1.2%float)]
    end in
  let unc := aggregate_uncertainty sp in
  let audit :=
    audit_append state
      [("node", VStr "uncertainty"); ("overall", opt_float_val (overall unc))] in
  mkState None None None None None (Some unc) None None (Some audit).

Definition validator_node (state : GraphState) : GraphState :=
  let ev := get_or (retrieved_evidence state) [] in
  let faithful := match ev with [] => false | _ => true end in
  let report := mkReport (Some faithful) ["stub"] in
  let audit :=
    audit_append state
      [("node", VStr "validator"); ("faithful", VBool faithful)] in
  mkState None None None None None None (Some report) None (Some audit).

(** [(state.get("uncertainty") or {}).get("overall", 1.0)] *)
Definition read_overall (state : GraphState) : float :=
  match uncertainty state with
  | Some u => get_or (overall u) 1.0%float
  | None => 1.0%float
  end.

(** [(state.get("validation_reports") or {}).get("faithful", False)] *)
Definition read_faithful (state : GraphState) : bool :=
  match validation_reports state with
  | Some r => get_or (faithful r) false
  | None => false
  end.

Definition auditor_node (state : GraphState) : GraphState :=
  let unc := read_overall state in
  let faithful := read_faithful state in
  let flag := PrimFloat.ltb 0.8%float unc || negb faithful in
  let audit :=
    audit_append state [("node", VStr "auditor"); ("flag", VBool flag)] in
  mkState None None None None None None None None (Some audit).

Definition supervisor_decision (faithful : bool) (unc : float) : string :=
  if faithful && PrimFloat.ltb unc 0.8%float
  then "answer"
  else (if faithful then "answer" else "dlq").

Definition supervisor_node (state : GraphState) : GraphState :=
  let unc := read_overall state in
  let faithful := read_faithful state in
  let decision := supervisor_decision faithful unc in
  let audit :=
    audit_append state
      [("node", VStr "supervisor"); ("decision", VStr decision)] in
  mkState None None None None None None None (Some decision) (Some audit).

(** ** The pipeline engine ([app/graph/__init__.py]) *)

Definition Node := GraphState -> GraphState.

(** The tuple of stages [SimplePipeline.invoke] loops over. *)
Definition STAGES : list Node :=
  [ router_node; retriever_node; ranker_node; answerer_node;
    uncertainty_node; validator_node; auditor_node; supervisor_node ].

(** One turn of the loop: [updates = node(state)], merged when true. *)
Definition run_stage (state : GraphState) (node : Node) : GraphState :=
  let updates := node state in
  if truthy updates then update state updates else state.

Module SimplePipeline.
Definition invoke (state : GraphState) : GraphState :=
  fold_left run_stage STAGES state.
End SimplePipeline.

(** The graph that the [try] branch of [build_graph] describes to the
    graph library: named nodes, an entry point and edges. *)
Module StateGraph.

Record t := mk {
  nodes : list (string * Node);
  entry : option string;
  edges : list (string * string)
}.

Definition END : string := "__end__".

Definition empty : t := mk [] None [].

Definition add_node (name : string) (f : Node) (g : t) : t :=
  mk (List.app (nodes g) [(name, f)]) (entry g) (edges g).

Definition set_entry_point (name : string) (g : t) : t :=
  mk (nodes g) (Some name) (edges g).

Definition add_edge (a b : string) (g : t) : t :=
  mk (nodes g) (entry g) (List.app (edges g) [(a, b)]).

Fixpoint assoc {A : Type} (k : string) (l : list (string * A)) : option A :=
  match l with
  | [] => None
  | (k', v) :: l' => if String.eqb k k' then Some v else assoc k l'
  end.

(** Modelled from the spec: the runnable that the graph library compiles
    is not part of the sources. Following section 4.1, [invoke] applies
    the stages in the order the edges fix, starting at the entry point,
    and merges each stage's partial update into the state field by field,
    the last writer winning; it stops at the edge into [END]. [fuel]
    bounds the number of stages run; a missing node or edge is a failure
    ([None]). *)
Fixpoint run (fuel : nat) (g : t) (cur : string) (state : GraphState)
  : option GraphState :=
  match fuel with
  | O => None
  | S fuel' =>
      match assoc cur (nodes g), assoc cur (edges g) with
      | Some f, Some next =>
          let state' := update state (f state) in
          if String.eqb next END then Some state'
          else run fuel' g next state'
      | _, _ => None
      end
  end.

Definition invoke (g : t) (state : GraphState) : option GraphState :=
  match entry g with
  | Some e => run (S (List.length (nodes g))) g e state
  | None => None
  end.

End StateGraph.

(** The calls of the [try] branch, in the order of the source. *)
Definition build_state_graph : StateGraph.t :=
  let sg := StateGraph.empty in
  let sg := StateGraph.add_node "router" router_node sg in
  let sg := StateGraph.add_node "retriever" retriever_node sg in
  let sg := StateGraph.add_node "ranker" ranker_node sg in
  let sg := StateGraph.add_node "answerer" answerer_node sg in
  let sg := StateGraph.add_node "uncertainty" uncertainty_node sg in
  let sg := StateGraph.add_node "validator" validator_node sg in
  let sg := StateGraph.add_node "auditor" auditor_node sg in
  let sg := StateGraph.add_node "supervisor" supervisor_node sg in
  let sg := StateGraph.set_entry_point "router" sg in
  let sg := StateGraph.add_edge "router" "retriever" sg in
  let sg := StateGraph.add_edge "retriever" "ranker" sg in
  let sg := StateGraph.add_edge "ranker" "answerer" sg in
  let sg := StateGraph.add_edge "answerer" "uncertainty" sg in
  let sg := StateGraph.add_edge "uncertainty" "validator" sg in
  let sg := StateGraph.add_edge "validator" "auditor" sg in
  let sg := StateGraph.add_edge "auditor" "supervisor" sg in
  let sg := StateGraph.add_edge "supervisor" StateGraph.END sg in
  sg.

(** What [build_graph] returns: the compiled graph, or the sequential
    pipeline when importing or building the graph raised. *)
Inductive Runnable :=
| CompiledGraph (g : StateGraph.t)
| Sequential.

Definition build_graph (backend_works : bool) : Runnable :=
  if backend_works then CompiledGraph build_state_graph else Sequential.

Definition invoke (r : Runnable) (state : GraphState) : option GraphState :=
  match r with
  | CompiledGraph g => StateGraph.invoke g state
  | Sequential => Some (SimplePipeline.invoke state)
  end.

(** The state a caller builds: [{"user_query": q}]. *)
Definition initial_state (q : string) : GraphState :=
  mkState (Some q) None None None None None None None None.

(** ** The dead-letter queue ([app/dlq/queue.py]) *)

Definition CR_char : ascii := ascii_of_nat 13.
Definition LF_char : ascii := ascii_of_nat 10.

(** What a file opened for reading in text mode hands out: a lone carriage
    return and a carriage return followed by a line feed both read as one
    line feed. *)
Fixpoint universal_newlines (s : string) : string :=
  match s with
  | EmptyString => EmptyString
  | String c s' =>
      if Ascii.eqb c CR_char then
        match s' with
        | String c' _ =>
            if Ascii.eqb c' LF_char then universal_newlines s'
            else String LF_char (universal_newlines s')
        | EmptyString => String LF_char EmptyString
        end
      else String c (universal_newlines s')
  end.

(** [for line in f]: the lines with their line feed, [cur] being the line
    read so far. *)
Fixpoint lines_aux (cur s : string) : list string :=
  match s with
  | EmptyString => if PyStr.is_empty cur then [] else [cur]
  | String c s' =>
      if Ascii.eqb c LF_char
      then (cur ++ LF) :: lines_aux EmptyString s'
      else lines_aux (cur ++ String c EmptyString) s'
  end.

Definition read_lines (file : string) : list string :=
  lines_aux EmptyString (universal_newlines file).

(** A string that breaks no line: neither line feed nor carriage return. *)
Fixpoint one_line (s : string) : bool :=
  match s with
  | EmptyString => true
  | String c s' =>
      negb (Ascii.eqb c LF_char) && negb (Ascii.eqb c CR_char) && one_line s'
  end.

(** What a run of the generator [stream] produces: the records it yields,
    and whether it ran to the end of the file or stopped at a line that
    [json.loads] rejects. *)
Inductive streamed (J : Type) :=
| Exhausted (yielded : list J)
| Raised (yielded : list J).
Arguments Exhausted {J} yielded.
Arguments Raised {J} yielded.

Definition yield {J : Type} (j : J) (r : streamed J) : streamed J :=
  match r with
  | Exhausted l => Exhausted (j :: l)
  | Raised l => Raised (j :: l)
  end.

Section FileDLQ.

(** The records, with [json.dumps(item, ensure_ascii=False)] and
    [json.loads(line)] of the JSON library. *)
Variable J : Type.
Variable dumps : J -> string.
Variable loads : string -> option J.

(** [__init__] on a path with no file: [touch] leaves an empty file. *)
Definition fresh : string := EmptyString.

(** [enqueue]: the file, as the text that text-mode writes put into it,
    grows by the record's text and a line feed. *)
Definition enqueue (file : string) (item : J) : string :=
  file ++ (dumps item ++ LF).

Definition enqueue_all (file : string) (items : list J) : string :=
  fold_left enqueue items file.

Fixpoint stream_lines (ls : list string) : streamed J :=
  match ls with
  | [] => Exhausted []
  | line :: ls' =>
      if PyStr.has_non_space line then
        match loads line with
        | Some j => yield j (stream_lines ls')
        | None => Raised []
        end
      else stream_lines ls'
  end.

Definition stream (file : string) : streamed J :=
  stream_lines (read_lines file).

End FileDLQ.

(** ** Logging ([app/utils/logging.py]) *)

Record Handler := mkHandler {
  h_stream : string;
  h_fmt : string;
  h_datefmt : string
}.

(** The root logger, as far as [setup_logging] touches it. *)
Record Logger := mkLogger {
  lg_handlers : list Handler;
  lg_level : Z
}.

Definition INFO : Z := 20.

Definition stdout_handler : Handler :=
  mkHandler "stdout"
    "%(asctime)s | %(levelname)s | %(name)s | %(message)s"
    "%Y-%m-%d %H:%M:%S".

Definition setup_logging (level : Z) (logger : Logger) : Logger :=
  match lg_handlers logger with
  | _ :: _ => logger
  | [] => mkLogger (List.app (lg_handlers logger) [stdout_handler]) level
  end.

(** ** Ingestion and chunking ([app/ingestion/pipeline.py],
       [app/indexing/chunking.py]) *)

Record DocumentMeta := mkMeta {
  m_id : string;
  m_type : string;
  m_source_uri : string
}.

Record DocSection := mkSection {
  sec_id : option string;
  sec_heading : option string;
  sec_text : option string
}.

Record NormalizedDoc := mkNormalized {
  document : DocumentMeta;
  sections : option (list DocSection)
}.

Record Chunk := mkChunk {
  c_doc_id : string;
  c_heading : option string;
  c_text : string;
  c_source_uri : string;
  c_hash : Z
}.

(** [range(0, stop, step)] for a positive [step], from [i] on. *)
Fixpoint range_up (fuel i stop step : nat) : list nat :=
  match fuel with
  | O => []
  | S fuel' =>
      if (i <? stop)%nat then i :: range_up fuel' (i + step) stop step else []
  end.

(** [range(0, stop, step)]: a step of 0 raises [ValueError] ([None]); a
    negative step counts down from 0 and so gives nothing. *)
Definition py_range (stop : nat) (step : Z) : option (list nat) :=
  if (step =? 0)%Z then None
  else if (step <? 0)%Z then Some []
  else Some (range_up stop 0 stop (Z.to_nat step)).

Section Chunking.

(** The built-in [hash] on strings. *)
Variable hash : string -> Z.

(** The inner loop: the parts [text[i:i+max_len]] of one section. *)
Definition section_chunks (doc : NormalizedDoc) (max_len : Z)
  (sec : DocSection) : option (list Chunk) :=
  let text := get_or (sec_text sec) "" in
  match py_range (String.length text) max_len with
  | None => None
  | Some starts =>
      Some (map (fun i =>
                   let part := substring i (Z.to_nat max_len) text in
                   mkChunk (m_id (document doc)) (sec_heading sec) part
                     (m_source_uri (document doc)) (hash part))
                starts)
  end.

(** The outer loop; the first section whose range raises ends the call. *)
Fixpoint chunk_sections (doc : NormalizedDoc) (max_len : Z)
  (secs : list DocSection) : option (list Chunk) :=
  match secs with
  | [] => Some []
  | sec :: rest =>
      match section_chunks doc max_len sec with
      | None => None
      | Some cs =>
          match chunk_sections doc max_len rest with
          | None => None
          | Some cs' => Some (List.app cs cs')
          end
      end
  end.

Definition simple_chunk_sections (doc : NormalizedDoc) (max_len : Z)
  : option (list Chunk) :=
  chunk_sections doc max_len (get_or (sections doc) []).

End Chunking.

Section Ingestion.

(** [blob.decode(errors="ignore")] *)
Variable decode : list Byte.byte -> string.

Definition normalize_document (blob : list Byte.byte) (source_uri : string)
  : NormalizedDoc :=
  let text := decode blob in
  mkNormalized
    (mkMeta source_uri "text/plain" source_uri)
    (Some [mkSection (Some (source_uri ++ "#0")) None (Some text)]).

(** [zip(blobs, uris)] stops with the shorter list. *)
Fixpoint batch_ingest (blobs : list (list Byte.byte)) (uris : list string)
  : list NormalizedDoc :=
  match blobs, uris with
  | b :: blobs', u :: uris' => normalize_document b u :: batch_ingest blobs' uris'
  | _, _ => []
  end.

End Ingestion.

(** ** The API entry point ([app/main.py], [app/config.py]) *)

Record AnswerPayload := mkPayload {
  answer : string;
  p_citations : list string;
  p_uncertainty : option Uncertainty;
  p_validation : option ValidationReport;
  p_decision : string
}.

Definition payload_of (state : GraphState) : AnswerPayload :=
  mkPayload
    (get_or (draft_answer state) "")
    (get_or (citations state) [])
    (uncertainty state)
    (validation_reports state)
    (get_or (decision state) "answer").

(** [chat]: [None] when the graph does not return. *)
Definition chat (graph : Runnable) (message : string) : option AnswerPayload :=
  option_map payload_of (invoke graph (initial_state message)).

(** ** The JSON library on the queue's records

    [json.dumps] and [json.loads] belong to the Python library, not to the
    sources. This model follows the library's documented conversion table
    on the values below: [None], booleans, integers,
    strings, lists, tuples and dicts with string or integer keys. A tuple is
    written as an array, like a list; an integer key is written as a string;
    an array is read as a list and every key as a string. Floats and the
    [\u] escape are left out: [loads] fails on them. Python compares dicts
    without regard to the order of their keys; here a dict is the list of
    its entries in insertion order. *)

Set Warnings "-register-all".

Inductive pykey :=
| KStr (s : string)
| KInt (z : Z).

Inductive pyobj :=
| PNone
| PBool (b : bool)
| PInt (z : Z)
| PStr (s : string)
| PList (items : list pyobj)
| PTuple (items : list pyobj)
| PDict (entries : list (pykey * pyobj)).

Module Json.

Definition quote : ascii := ascii_of_nat 34.
Definition backslash : ascii := ascii_of_nat 92.

Definition str_of_Z (z : Z) : string := NilZero.string_of_int (Z.to_int z).

Definition hex_digit (n : nat) : ascii :=
  if (n <? 10)%nat then ascii_of_nat (48 + n) else ascii_of_nat (87 + n).

(** One character of a string, as [dumps] writes it with
    [ensure_ascii=False]. *)
Definition escape_char (c : ascii) : string :=
  let n := nat_of_ascii c in
  let esc (x : string) := String backslash x in
  if Ascii.eqb c quote then esc (String quote EmptyString)
  else if Ascii.eqb c backslash then esc (String backslash EmptyString)
  else if (n =? 10)%nat then esc "n"
  else if (n =? 13)%nat then esc "r"
  else if (n =? 9)%nat then esc "t"
  else if (n =? 8)%nat then esc "b"
  else if (n =? 12)%nat then esc "f"
  else if (n <? 32)%nat
  then esc ("u00" ++ String (hex_digit (n / 16))
                       (String (hex_digit (n mod 16)) EmptyString))
  else String c EmptyString.

Fixpoint escape (s : string) : string :=
  match s with
  | EmptyString => EmptyString
  | String c s' => escape_char c ++ escape s'
  end.

Definition quoted (s : string) : string :=
  String quote (escape s ++ String quote EmptyString).

Definition dumps_key (k : pykey) : string :=
  match k with
  | KStr s => quoted s
  | KInt z => quoted (str_of_Z z)
  end.

(** [json.dumps(v, ensure_ascii=False)] *)
Fixpoint dumps (v : pyobj) : string :=
  match v with
  | PNone => "null"
  | PBool true => "true"
  | PBool false => "false"
  | PInt z => str_of_Z z
  | PStr s => quoted s
  | PList items => "[" ++ String.concat ", " (map dumps items) ++ "]"
  | PTuple items => "[" ++ String.concat ", " (map dumps items) ++ "]"
  | PDict entries =>
      "{" ++ String.concat ", "
               (map (fun kv => dumps_key (fst kv) ++ ": " ++ dumps (snd kv))
                    entries)
          ++ "}"
  end.

Definition is_ws (c : ascii) : bool :=
  let n := nat_of_ascii c in
  (n =? 32)%nat || (n =? 9)%nat || (n =? 10)%nat || (n =? 13)%nat.

Fixpoint skip_ws (s : string) : string :=
  match s with
  | String c s' => if is_ws c then skip_ws s' else s
  | EmptyString => s
  end.

(** The rest of a string literal, behind its opening quote. *)
Fixpoint parse_string (s : string) : option (string * string) :=
  match s with
  | EmptyString => None
  | String c s' =>
      if Ascii.eqb c quote then Some (EmptyString, s')
      else if Ascii.eqb c backslash then
        match s' with
        | String e s'' =>
            let put (x : nat) :=
              match parse_string s'' with
              | Some (str, rest) => Some (String (ascii_of_nat x) str, rest)
              | None => None
              end in
            let n := nat_of_ascii e in
            if (n =? 34)%nat then put 34
            else if (n =? 92)%nat then put 92
            else if (n =? 47)%nat then put 47
            else if (n =? 110)%nat then put 10
            else if (n =? 114)%nat then put 13
            else if (n =? 116)%nat then put 9
            else if (n =? 98)%nat then put 8
            else if (n =? 102)%nat then put 12
            else None
        | EmptyString => None
        end
      else if (nat_of_ascii c <? 32)%nat then None
      else
        match parse_string s' with
        | Some (str, rest) => Some (String c str, rest)
        | None => None
        end
  end.

Definition is_digit (c : ascii) : bool :=
  let n := nat_of_ascii c in (48 <=? n)%nat && (n <=? 57)%nat.

(** The digits at the front of [s], as a number, with what follows. *)
Fixpoint parse_digits (acc : Z) (s : string) : Z * string :=
  match s with
  | String c s' =>
      if is_digit c
      then parse_digits (10 * acc + Z.of_nat (nat_of_ascii c - 48)) s'
      else (acc, s)
  | EmptyString => (acc, s)
  end.

Definition starts_fraction (s : string) : bool :=
  match s with
  | String c _ =>
      let n := nat_of_ascii c in (n =? 46)%nat || (n =? 101)%nat || (n =? 69)%nat
  | EmptyString => false
  end.

(** An integer: digits without a leading zero, not followed by a fraction
    or an exponent. *)
Definition parse_nat (s : string) : option (Z * string) :=
  match s with
  | String c s' =>
      if is_digit c then
        let '(z, rest) := parse_digits 0 s in
        if starts_fraction rest then None
        else if (nat_of_ascii c =? 48)%nat
        then (match s' with
              | String d _ => if is_digit d then None else Some (z, rest)
              | EmptyString => Some (z, rest)
              end)
        else Some (z, rest)
      else None
  | EmptyString => None
  end.

Definition drop (n : nat) (s : string) : string :=
  substring n (String.length s - n) s.

Definition parse_scalar (s : string) : option (pyobj * string) :=
  if prefix "null" s then Some (PNone, drop 4 s)
  else if prefix "true" s then Some (PBool true, drop 4 s)
  else if prefix "false" s then Some (PBool false, drop 5 s)
  else
    match s with
    | String c s' =>
        if (nat_of_ascii c =? 45)%nat then
          match parse_nat s' with
          | Some (z, rest) => Some (PInt (- z), rest)
          | None => None
          end
        else
          match parse_nat s with
          | Some (z, rest) => Some (PInt z, rest)
          | None => None
          end
    | EmptyString => None
    end.

(** A key read again replaces the value read before. *)
Fixpoint set_key (k : string) (v : pyobj) (entries : list (pykey * pyobj))
  : list (pykey * pyobj) :=
  match entries with
  | [] => [(KStr k, v)]
  | (KStr k', v') :: rest =>
      if String.eqb k k' then (KStr k', v) :: rest
      else (KStr k', v') :: set_key k v rest
  | e :: rest => e :: set_key k v rest
  end.

Fixpoint parse_value (fuel : nat) (s : string) : option (pyobj * string) :=
  match fuel with
  | O => None
  | S fuel' =>
      match skip_ws s with
      | EmptyString => None
      | String c rest =>
          let n := nat_of_ascii c in
          if (n =? 123)%nat then
            match skip_ws rest with
            | String c' rest' =>
                if (nat_of_ascii c' =? 125)%nat then Some (PDict [], rest')
                else parse_members fuel' rest []
            | EmptyString => None
            end
          else if (n =? 91)%nat then
            match skip_ws rest with
            | String c' rest' =>
                if (nat_of_ascii c' =? 93)%nat then Some (PList [], rest')
                else parse_elements fuel' rest []
            | EmptyString => None
            end
          else if (n =? 34)%nat then
            match parse_string rest with
            | Some (str, rest') => Some (PStr str, rest')
            | None => None
            end
          else parse_scalar (String c rest)
      end
  end
with parse_elements (fuel : nat) (s : string) (acc : list pyobj)
  : option (pyobj * string) :=
  match fuel with
  | O => None
  | S fuel' =>
      match parse_value fuel' s with
      | Some (v, rest) =>
          match skip_ws rest with
          | String c rest' =>
              if (nat_of_ascii c =? 44)%nat
              then parse_elements fuel' rest' (List.app acc [v])
              else if (nat_of_ascii c =? 93)%nat
              then Some (PList (List.app acc [v]), rest')
              else None
          | EmptyString => None
          end
      | None => None
      end
  end
with parse_members (fuel : nat) (s : string) (acc : list (pykey * pyobj))
  : option (pyobj * string) :=
  match fuel with
  | O => None
  | S fuel' =>
      match skip_ws s with
      | String q rest =>
          if (nat_of_ascii q =? 34)%nat then
            match parse_string rest with
            | Some (k, rest1) =>
                match skip_ws rest1 with
                | String c rest2 =>
                    if (nat_of_ascii c =? 58)%nat then
                      match parse_value fuel' rest2 with
                      | Some (v, rest3) =>
                          match skip_ws rest3 with
                          | String c' rest4 =>
                              if (nat_of_ascii c' =? 44)%nat
                              then parse_members fuel' rest4 (set_key k v acc)
                              else if (nat_of_ascii c' =? 125)%nat
                              then Some (PDict (set_key k v acc), rest4)
                              else None
                          | EmptyString => None
                          end
                      | None => None
                      end
                    else None
                | EmptyString => None
                end
            | None => None
            end
          else None
      | EmptyString => None
      end
  end.

(** [json.loads(text)]: one value, with nothing but blanks behind it;
    [None] stands for the error the library raises. *)
Definition loads (text : string) : option pyobj :=
  match parse_value (2 * String.length text + 2) text with
  | Some (v, rest) =>
      match skip_ws rest with
      | EmptyString => Some v
      | String _ _ => None
      end
  | None => None
  end.

End Json.

(** A record that holds a span as a tuple, one with an integer key, and
    what they are read back as. *)
Definition span_record : pyobj :=
  PDict [(KStr "reason", PStr "unfaithful"); (KStr "span", PTuple [PInt 0; PInt 10])].

Definition span_record_read : pyobj :=
  PDict [(KStr "reason", PStr "unfaithful"); (KStr "span", PList [PInt 0; PInt 10])].

Definition keyed_record : pyobj :=
  PDict [(KInt 7, PStr "seven"); (KStr "note", PStr ("a" ++ LF ++ "b"))].


(** ** The cut-off of the retriever as an [int] *)

(** [l[:k]]: the first [k] items, or for a negative [k] all but the last
    [-k]. *)
Definition slice_to {A : Type} (k : Z) (l : list A) : list A :=
  if (0 <=? k)%Z then firstn (Z.to_nat k) l
  else firstn (List.length l - Z.to_nat (- k)) l.

(** [simple_keyword_match] over a corpus, with the cut-off as the [int] the
    source takes; [keyword_match_in] is this function on the cut-offs that
    are not negative. *)
Definition keyword_match_cut (corpus : list Doc) (query : string) (k : Z)
  : list Evidence :=
  if PyStr.is_empty query then []
  else
    let terms := query_terms query in
    let scored := sort_desc (scored_of corpus terms) in
    map with_score (slice_to k scored).

(** Three documents that all hold the word of a query. *)
Definition THREE_DOCS : list Doc :=
  [ mkDoc "a" "A" "data" "file://a" [];
    mkDoc "b" "B" "data data data" "file://b" [];
    mkDoc "c" "C" "data, more data" "file://c" [] ].

(** ** Notions the properties are stated with *)

(** The two keyword lists of the router. *)
Definition SYNTHESIS_KEYWORDS : list string :=
  ["why"; "how"; "compare"; "design"; "tradeoff"].

Definition POLICY_KEYWORDS : list string :=
  ["policy"; "gdpr"; "security"; "compliance"].

(** The arithmetic mean of a list of floats: their sum over their number. *)
Definition arithmetic_mean (xs : list float) : float :=
  (fold_left PrimFloat.add xs 0 / float_of_nat (List.length xs))%float.

Definition entropy_of (s : Span) : float := get_or (entropy s) 0.0%float.

(** The fixed order of execution, by stage name. *)
Definition STAGE_NAMES : list string :=
  [ "router"; "retriever"; "ranker"; "answerer";
    "uncertainty"; "validator"; "auditor"; "supervisor" ].

(** The node names of a trail, record by record. *)
Definition audit_names (trail : list AuditRecord) : list (option pyval) :=
  map node_name trail.

Definition named (names : list string) : list (option pyval) :=
  map (fun n => Some (VStr n)) names.

(** A state that holds a query and evidence, as the answerer meets it. *)
Definition state_with (q : string) (ev : list Evidence) : GraphState :=
  mkState (Some q) None (Some ev) None None None None None None.

(** An evidence item whose [source_uri] is there and is the empty string. *)
Definition unsourced_item : Evidence :=
  mkEvidence (Some "doc-9") None (Some "Some text.") (Some "") None None.

(** The retriever's score in the words of the specification: the query is
    split on whitespace, the tokens longer than two characters are kept, and
    a document scores the sum, over these tokens, of the occurrences of the
    token in its text, letter case set aside. *)
Definition kept_tokens (query : string) : list string :=
  filter (fun t => (2 <? String.length t)%nat) (PyStr.split query).

Definition occurrences (query : string) (d : Doc) : nat :=
  list_sum
    (map (fun t => PyStr.count (PyStr.lower (d_text d)) (PyStr.lower t))
         (kept_tokens query)).

(** A document with the score it is handed out with. *)
Definition scored_doc (query : string) (d : Doc) : Evidence :=
  with_score (occurrences query d, d).

(** Order of a list sorted by falling key. *)
Definition key_ge {A : Type} (a b : nat * A) : Prop := (fst b <= fst a)%nat.

(** A text made of whole lines, each closed by a line feed. *)
Fixpoint concat_lines (ls : list string) : string :=
  match ls with
  | [] => EmptyString
  | l :: ls' => l ++ (LF ++ concat_lines ls')
  end.

(** Three records and their JSON texts, for running the queue on. *)
Inductive sample_record := Unfaithful_answer | No_evidence | Needs_review.

Definition DQ : string := String (ascii_of_nat 34) EmptyString.

Definition sample_dumps (r : sample_record) : string :=
  match r with
  | Unfaithful_answer => "{" ++ DQ ++ "id" ++ DQ ++ ": 1}"
  | No_evidence => "{" ++ DQ ++ "id" ++ DQ ++ ": 2}"
  | Needs_review => "{" ++ DQ ++ "id" ++ DQ ++ ": 3}"
  end.

Definition sample_loads (line : string) : option sample_record :=
  if String.eqb line (sample_dumps Unfaithful_answer ++ LF)
  then Some Unfaithful_answer
  else if String.eqb line (sample_dumps No_evidence ++ LF)
  then Some No_evidence
  else if String.eqb line (sample_dumps Needs_review ++ LF)
  then Some Needs_review
  else None.

(** What a full run computes from the query [q], the evidence [ev] found
    for it and the trail [before] the run: the intent, whether there is
    evidence, and the eight records of the stages. *)
Definition intent_of (q : string) : string :=
  if PyStr.any_in POLICY_KEYWORDS (PyStr.lower q) then "policy"
  else if PyStr.any_in SYNTHESIS_KEYWORDS (PyStr.lower q) then "synthesis"
  else "lookup".

Definition has_evidence (ev : list Evidence) : bool :=
  match ev with [] => false | _ :: _ => true end.

Definition overall_of (ev : list Evidence) : float :=
  if has_evidence ev then 0.1%float else 1.2%float.

Definition decision_of (ev : list Evidence) : string :=
  if has_evidence ev then "answer" else "dlq".

Definition stage_records (q : string) (ev : list Evidence)
  : list AuditRecord :=
  [ [("node", VStr "router"); ("intent", VStr (intent_of q))];
    [("node", VStr "retriever"); ("hits", VInt (Z.of_nat (List.length ev)))];
    [("node", VStr "ranker"); ("kept", VInt (Z.of_nat (List.length ev)))];
    [("node", VStr "answerer");
     ("len", VInt (Z.of_nat (String.length (fst (draft_and_citations q ev)))))];
    [("node", VStr "uncertainty"); ("overall", VFloat (overall_of ev))];
    [("node", VStr "validator"); ("faithful", VBool (has_evidence ev))];
    [("node", VStr "auditor"); ("flag", VBool (negb (has_evidence ev)))];
    [("node", VStr "supervisor"); ("decision", VStr (decision_of ev))] ].

Definition final_state (state : GraphState) : GraphState :=
  let q := get_or (user_query state) "" in
  let ev := simple_keyword_match q 5 in
  mkState (user_query state) (Some (intent_of q)) (Some ev)
    (Some (fst (draft_and_citations q ev)))
    (Some (snd (draft_and_citations q ev)))
    (Some (mkUncertainty (Some (overall_of ev))
             [mkSpan 0 10 (Some (overall_of ev))]))
    (Some (mkReport (Some (has_evidence ev)) ["stub"]))
    (Some (decision_of ev))
    (Some (List.app (audit_of state) (stage_records q ev))).

(** A line of a queue file: blank (whitespace only) or a record. *)
Definition entry_text {J : Type} (dumps : J -> string) (e : string + J)
  : string :=
  match e with inl ws => ws | inr j => dumps j end.

Fixpoint entry_records {J : Type} (es : list (string + J)) : list J :=
  match es with
  | [] => []
  | inl _ :: es' => entry_records es'
  | inr j :: es' => j :: entry_records es'
  end.

Definition blank_line (e : string) : Prop :=
  one_line e = true /\ PyStr.has_non_space e = false.

(** The texts of a list of pieces, one after the other. *)
Definition glue (pieces : list string) : string :=
  fold_right append EmptyString pieces.

Definition section_text (sec : DocSection) : string :=
  get_or (sec_text sec) "".

(** A chunk cut as it should be: not empty, no longer than [max_len],
    carrying the document's id and source and the hash of its own text. *)
Definition well_cut (hash : string -> Z) (doc : NormalizedDoc) (max_len : Z)
  (c : Chunk) : Prop :=
  1 <= String.length (c_text c) <= Z.to_nat max_len
  /\ c_doc_id c = m_id (document doc)
  /\ c_source_uri c = m_source_uri (document doc)
  /\ c_hash c = hash (c_text c).

(** Occurrences of [sub] in [s] as [str.count] is documented: look for the
    first occurrence at or behind position [pos]; if there is one, count it
    and look on behind its end. The text has fewer occurrences than
    characters plus one, which bounds the search. *)
Fixpoint occurrences_from (fuel pos : nat) (sub s : string) : nat :=
  match fuel with
  | O => 0
  | S fuel' =>
      match index pos sub s with
      | Some i => S (occurrences_from fuel' (i + String.length sub) sub s)
      | None => 0
      end
  end.

Definition occurrences_in (sub s : string) : nat :=
  occurrences_from (S (String.length s)) 0 sub s.

(** The score of a document for a query, in these terms. *)
Definition token_hits (query : string) (d : Doc) : nat :=
  list_sum
    (map (fun t => occurrences_in (PyStr.lower t) (PyStr.lower (d_text d)))
         (kept_tokens query)).

(** The evidence item for a document: its five entries and its score as a
    float. *)
Definition evidence_of (query : string) (d : Doc) : Evidence :=
  mkEvidence (Some (d_doc_id d)) (Some (d_heading d)) (Some (d_text d))
    (Some (d_source_uri d)) (Some (d_security_tags d))
    (Some (float_of_nat (token_hits query d))).

Definition id_and_score (e : Evidence) : option string * option float :=
  (doc_id e, score e).

(** * Properties *)

(** ** The primitives on sample inputs *)

Example split_runs_of_whitespace :
  PyStr.split ("  why  does" ++ String (ascii_of_nat 9) "X fail ")
  = ["why"; "does"; "X"; "fail"].
Proof. reflexivity. Qed.

Example lower_keeps_other_characters :
  PyStr.lower "What is our GDPR policy?" = "what is our gdpr policy?".
Proof. reflexivity. Qed.

Example count_does_not_overlap :
  PyStr.count "aaaa" "aa" = 2 /\ PyStr.count "banana" "ana" = 1
  /\ PyStr.count "banana" "an" = 2 /\ PyStr.count "banana" "x" = 0.
Proof. repeat split. Qed.

Example contains_inside_a_word :
  PyStr.contains "how" "show me" = true /\ PyStr.contains "why" "show me" = false.
Proof. split; reflexivity. Qed.

Example sort_desc_keeps_ties_in_order :
  sort_desc [(1, "a"); (3, "b"); (1, "c"); (3, "d"); (2, "e")]
  = [(3, "b"); (3, "d"); (2, "e"); (1, "a"); (1, "c")].
Proof. reflexivity. Qed.

Example citations_of_partial_items :
  format_citations
    [ mkEvidence (Some "doc-1") (Some "Intro") None (Some "file://a") None None;
      mkEvidence (Some "doc-2") None None None None None;
      mkEvidence None (Some "") None None None None ]
  = ["[1] file://a :: Intro"; "[2] doc-2"; "[3] unknown"].
Proof. reflexivity. Qed.

Example smoke_run :
  let out := SimplePipeline.invoke (initial_state "How does UDA handle uncertainty?") in
  intent out = Some "synthesis"
  /\ option_map (map doc_id) (retrieved_evidence out) = Some [Some "doc-2"]
  /\ citations out
     = Some ["[1] internal://docs/uda/uncertainty.md :: Uncertainty Handling"]
  /\ option_map overall (uncertainty out) = Some (Some 0.1%float)
  /\ decision out = Some "answer".
Proof. vm_compute. repeat split. Qed.

Example read_lines_translates_carriage_returns :
  read_lines ("a" ++ String CR_char LF ++ "b" ++ String CR_char "c")
  = ["a" ++ LF; "b" ++ LF; "c"].
Proof. reflexivity. Qed.

(** ** The engine, stage by stage *)

Lemma run_stage_update (state : GraphState) (node : Node) :
  run_stage state node = update state (node state).
Proof.
  unfold run_stage. destruct (truthy (node state)) eqn:E; [reflexivity |].
  destruct (node state) as [a b c d e f g h i]; destruct state.
  destruct a, b, c, d, e, f, g, h, i; try discriminate E. reflexivity.
Qed.

Ltac run_stage_record :=
  intros; rewrite run_stage_update;
  match goal with s : GraphState |- _ => destruct s end; reflexivity.

Lemma run_router (s : GraphState) :
  run_stage s router_node
  = mkState (user_query s) (intent (router_node s)) (retrieved_evidence s)
      (draft_answer s) (citations s) (uncertainty s) (validation_reports s)
      (decision s) (audit_trail (router_node s)).
Proof. run_stage_record. Qed.

Lemma run_retriever (s : GraphState) :
  run_stage s retriever_node
  = mkState (user_query s) (intent s)
      (Some (simple_keyword_match (get_or (user_query s) "") 5))
      (draft_answer s) (citations s) (uncertainty s) (validation_reports s)
      (decision s) (audit_trail (retriever_node s)).
Proof. run_stage_record. Qed.

Lemma run_ranker (s : GraphState) :
  run_stage s ranker_node
  = mkState (user_query s) (intent s)
      (Some (get_or (retrieved_evidence s) []))
      (draft_answer s) (citations s) (uncertainty s) (validation_reports s)
      (decision s) (audit_trail (ranker_node s)).
Proof. run_stage_record. Qed.

Lemma run_answerer (s : GraphState) :
  let dc := draft_and_citations (get_or (user_query s) "")
              (get_or (retrieved_evidence s) []) in
  run_stage s answerer_node
  = mkState (user_query s) (intent s) (retrieved_evidence s)
      (Some (fst dc)) (Some (snd dc)) (uncertainty s) (validation_reports s)
      (decision s) (audit_trail (answerer_node s)).
Proof.
  cbv zeta; rewrite run_stage_update; unfold answerer_node.
  destruct (draft_and_citations _ _); destruct s; reflexivity.
Qed.

Lemma run_uncertainty (s : GraphState) :
  run_stage s uncertainty_node
  = mkState (user_query s) (intent s) (retrieved_evidence s)
      (draft_answer s) (citations s) (uncertainty (uncertainty_node s))
      (validation_reports s) (decision s) (audit_trail (uncertainty_node s)).
Proof. run_stage_record. Qed.

Lemma run_validator (s : GraphState) :
  run_stage s validator_node
  = mkState (user_query s) (intent s) (retrieved_evidence s)
      (draft_answer s) (citations s) (uncertainty s)
      (Some (mkReport
               (Some (match get_or (retrieved_evidence s) [] with
                      | [] => false | _ => true end)) ["stub"]))
      (decision s) (audit_trail (validator_node s)).
Proof. run_stage_record. Qed.

Lemma run_auditor (s : GraphState) :
  run_stage s auditor_node
  = mkState (user_query s) (intent s) (retrieved_evidence s)
      (draft_answer s) (citations s) (uncertainty s) (validation_reports s)
      (decision s) (audit_trail (auditor_node s)).
Proof. run_stage_record. Qed.

Lemma run_supervisor (s : GraphState) :
  run_stage s supervisor_node
  = mkState (user_query s) (intent s) (retrieved_evidence s)
      (draft_answer s) (citations s) (uncertainty s) (validation_reports s)
      (Some (supervisor_decision (read_faithful s) (read_overall s)))
      (audit_trail (supervisor_node s)).
Proof. run_stage_record. Qed.

(** ** Decision policy *)

Lemma supervisor_decision_faithful (faithful : bool) (unc : float) :
  supervisor_decision faithful unc = if faithful then "answer" else "dlq".
Proof.
  unfold supervisor_decision.
  destruct faithful; simpl; [destruct (PrimFloat.ltb unc 0.8) |]; reflexivity.
Qed.

Lemma run_stage_decision (state : GraphState) :
  decision (run_stage state supervisor_node)
  = decision (supervisor_node state).
Proof. reflexivity. Qed.

(** Names the eight intermediate states of a run, each with the record
    that its stage leaves. *)
Ltac name_stages state :=
  unfold SimplePipeline.invoke, STAGES; cbn [fold_left];
  remember (run_stage state router_node) as s1 eqn:E1;
  rewrite run_router in E1;
  remember (run_stage s1 retriever_node) as s2 eqn:E2;
  rewrite run_retriever in E2;
  remember (run_stage s2 ranker_node) as s3 eqn:E3;
  rewrite run_ranker in E3;
  remember (run_stage s3 answerer_node) as s4 eqn:E4;
  rewrite run_answerer in E4;
  remember (run_stage s4 uncertainty_node) as s5 eqn:E5;
  rewrite run_uncertainty in E5;
  remember (run_stage s5 validator_node) as s6 eqn:E6;
  rewrite run_validator in E6;
  remember (run_stage s6 auditor_node) as s7 eqn:E7;
  rewrite run_auditor in E7;
  remember (run_stage s7 supervisor_node) as s8 eqn:E8;
  rewrite run_supervisor in E8.

Ltac project E :=
  rewrite E;
  cbn [user_query intent retrieved_evidence draft_answer citations
       uncertainty validation_reports decision get_or read_faithful faithful].

(** The fields of the final state that depend on the query alone. *)
Lemma pipeline_fields (state : GraphState) :
  let q := get_or (user_query state) "" in
  let ev := simple_keyword_match q 5 in
  let final := SimplePipeline.invoke state in
  user_query final = user_query state
  /\ retrieved_evidence final = Some ev
  /\ draft_answer final = Some (fst (draft_and_citations q ev))
  /\ citations final = Some (snd (draft_and_citations q ev))
  /\ validation_reports final
     = Some (mkReport (Some (match ev with [] => false | _ => true end)) ["stub"])
  /\ decision final = Some (match ev with [] => "dlq" | _ => "answer" end).
Proof.
  cbv zeta. name_stages state.
  assert (Q1 : user_query s1 = user_query state) by (project E1; reflexivity).
  assert (Q2 : user_query s2 = user_query state) by (project E2; exact Q1).
  assert (Q3 : user_query s3 = user_query state) by (project E3; exact Q2).
  assert (R2 : retrieved_evidence s2
               = Some (simple_keyword_match (get_or (user_query state) "") 5))
    by (project E2; rewrite Q1; reflexivity).
  assert (R3 : retrieved_evidence s3
               = Some (simple_keyword_match (get_or (user_query state) "") 5))
    by (project E3; rewrite R2; reflexivity).
  assert (R4 : retrieved_evidence s4 = retrieved_evidence s3)
    by (project E4; reflexivity).
  assert (R5 : retrieved_evidence s5 = retrieved_evidence s3)
    by (project E5; exact R4).
  assert (R6 : retrieved_evidence s6 = retrieved_evidence s3)
    by (project E6; exact R5).
  clear E1 E2.
  split; [project E8; project E7; project E6; project E5; project E4; exact Q3 |].
  split; [project E8; project E7; rewrite R6; exact R3 |].
  split; [project E8; project E7; project E6; project E5; project E4;
          rewrite Q3, R3; reflexivity |].
  split; [project E8; project E7; project E6; project E5; project E4;
          rewrite Q3, R3; reflexivity |].
  split; [project E8; project E7; project E6; rewrite R5, R3; reflexivity |].
  project E8. project E7. project E6. rewrite R5, R3.
  cbn [get_or faithful].
  rewrite supervisor_decision_faithful.
  destruct (simple_keyword_match _ _); reflexivity.
Qed.

(** C1. Whatever state reaches the supervisor: when the [faithful] entry
    of its [validation_reports] is true the decision is ["answer"], whatever
    the state holds as uncertainty, also an [overall] of 0.8 or more; when
    the entry is false the decision is ["dlq"], for every uncertainty; and
    the decision is always one of the two strings. This holds of the update
    the stage returns and of the state the engine merges it into. A state
    with [faithful] true and [overall] 0.9 is answered. *)
Theorem supervisor_policy (state : GraphState) :
  (forall r : ValidationReport,
      validation_reports state = Some r -> faithful r = Some true ->
      decision (supervisor_node state) = Some "answer"
      /\ decision (run_stage state supervisor_node) = Some "answer")
  /\ (forall r : ValidationReport,
        validation_reports state = Some r -> faithful r = Some false ->
        decision (supervisor_node state) = Some "dlq"
        /\ decision (run_stage state supervisor_node) = Some "dlq")
  /\ (forall (r : ValidationReport) (u : Uncertainty) (ov : float),
        validation_reports state = Some r -> faithful r = Some true ->
        uncertainty state = Some u -> overall u = Some ov ->
        PrimFloat.leb 0.8%float ov = true ->
        decision (supervisor_node state) = Some "answer")
  /\ (decision (supervisor_node state) = Some "answer"
      \/ decision (supervisor_node state) = Some "dlq")
  /\ (forall (cks : list string) (sp : list Span),
        decision
          (supervisor_node
             (mkState (user_query state) None None None None
                (Some (mkUncertainty (Some 0.9%float) sp))
                (Some (mkReport (Some true) cks)) None None))
        = Some "answer")
  /\ (forall (cks : list string) (unc : option Uncertainty),
        decision
          (supervisor_node
             (mkState (user_query state) None None None None unc
                (Some (mkReport (Some false) cks)) None None))
        = Some "dlq").
Proof.
  assert (H : decision (supervisor_node state)
              = Some (if read_faithful state then "answer" else "dlq")).
  { unfold supervisor_node; cbn [decision].
    now rewrite supervisor_decision_faithful. }
  assert (Ht : forall r, validation_reports state = Some r ->
                         faithful r = Some true ->
                         decision (supervisor_node state) = Some "answer").
  { intros r Hr Hf; rewrite H; unfold read_faithful; rewrite Hr, Hf.
    reflexivity. }
  split.
  { intros r Hr Hf; rewrite run_stage_decision; split; exact (Ht r Hr Hf). }
  split.
  { intros r Hr Hf; rewrite run_stage_decision, H; unfold read_faithful.
    rewrite Hr, Hf; split; reflexivity. }
  split; [intros r u ov Hr Hf _ _ _; exact (Ht r Hr Hf) |].
  split; [rewrite H; destruct (read_faithful state); [left | right];
          reflexivity |].
  split; [intros cks sp; reflexivity |].
  intros cks unc; unfold supervisor_node; cbn [decision].
  rewrite supervisor_decision_faithful; reflexivity.
Qed.

(** ** Answerer without evidence *)

(** C3. When the state holds no evidence (the key is absent or the list is
    empty) the answerer's draft is the fixed abstention message, which is
    not the empty string, and its citations are the empty list. *)
Theorem answerer_abstains (state : GraphState)
  (Hev : get_or (retrieved_evidence state) [] = []) :
  draft_answer (answerer_node state) = Some ABSTENTION
  /\ citations (answerer_node state) = Some []
  /\ ABSTENTION <> EmptyString
  /\ (0 < String.length ABSTENTION)%nat.
Proof.
  unfold answerer_node; rewrite Hev; cbn.
  repeat split; [discriminate | lia].
Qed.

Lemma answerer_abstains_witness :
  get_or (retrieved_evidence (initial_state "what now")) [] = []
  /\ draft_answer (answerer_node (initial_state "what now")) = Some ABSTENTION.
Proof.
  split; [reflexivity |].
  apply (answerer_abstains (initial_state "what now")); reflexivity.
Defined.

(** ** Router *)

(** C7. The router reads the lowercased query; a policy keyword inside it
    gives ["policy"], also when a synthesis keyword is there too; failing
    that a synthesis keyword gives ["synthesis"]; failing both the intent is
    ["lookup"]. The three queries of the specification come out as
    synthesis, policy and lookup, and a keyword written in capitals counts
    like one in small letters. *)
Theorem router_intent (state : GraphState) :
  let q := PyStr.lower (get_or (user_query state) "") in
  intent (router_node state)
  = Some (if PyStr.any_in POLICY_KEYWORDS q then "policy"
          else if PyStr.any_in SYNTHESIS_KEYWORDS q then "synthesis"
          else "lookup")
  /\ intent (router_node (initial_state "why does X fail")) = Some "synthesis"
  /\ intent (router_node (initial_state "what is our GDPR policy")) = Some "policy"
  /\ intent (router_node (initial_state "list files")) = Some "lookup"
  /\ intent (router_node (initial_state "how to design a security policy"))
     = Some "policy"
  /\ intent (router_node (initial_state "SECURITY review")) = Some "policy"
  /\ intent (router_node (initial_state "HOW do I start")) = Some "synthesis"
  /\ intent (router_node (initial_state "Compare A with B")) = Some "synthesis"
  /\ intent (router_node (initial_state "WHY is Compliance hard"))
     = Some "policy"
  /\ intent (router_node (initial_state "LIST FILES")) = Some "lookup".
Proof.
  cbv zeta. split; [| repeat split; vm_compute; reflexivity].
  unfold router_node; cbn [intent].
  reflexivity.
Qed.

(** ** Uncertainty aggregation *)

Lemma fold_left_map_add (sp : list Span) (acc : float) :
  fold_left (fun a s => (a + get_or (entropy s) 0.0)%float) sp acc
  = fold_left PrimFloat.add (map entropy_of sp) acc.
Proof.
  revert acc; induction sp as [| s sp IH]; intro acc; simpl.
  - reflexivity.
  - apply IH.
Qed.

(** C8. On the empty list the summary is [overall = 0.0] with no spans; on
    a list with at least one span, [overall] is the arithmetic mean of the
    spans' entropies and the spans are handed back as they came; one span
    of entropy 0.1 gives 0.1, and entropies 0.1 and 1.2 give 0.65. *)
Theorem aggregate_uncertainty_mean :
  aggregate_uncertainty [] = mkUncertainty (Some 0.0%float) []
  /\ (forall (s : Span) (sp : list Span),
        aggregate_uncertainty (s :: sp)
        = mkUncertainty
            (Some (arithmetic_mean (map entropy_of (s :: sp)))) (s :: sp))
  /\ overall (aggregate_uncertainty [mkSpan 0 10 (Some 0.1%float)])
     = Some 0.1%float
  /\ overall (aggregate_uncertainty
                [mkSpan 0 10 (Some 0.1%float); mkSpan 10 20 (Some 1.2%float)])
     = Some 0.65%float.
Proof.
  split; [reflexivity |].
  split; [| split; vm_compute; reflexivity].
  intros s sp.
  unfold aggregate_uncertainty, arithmetic_mean, entropy_sum.
  rewrite fold_left_map_add, length_map.
  replace (Nat.max (List.length (s :: sp)) 1) with (List.length (s :: sp))
    by (simpl; lia).
  reflexivity.
Qed.

(** ** Audit trail *)

Ltac stage_appends lem :=
  intros; rewrite lem; unfold audit_of at 1;
  cbn [audit_trail get_or];
  unfold router_node, retriever_node, ranker_node, answerer_node,
    uncertainty_node, validator_node, auditor_node, supervisor_node;
  try match goal with
      | |- context [draft_and_citations ?q ?e] =>
          destruct (draft_and_citations q e)
      end;
  cbn [audit_trail get_or];
  unfold audit_append, audit_names; rewrite map_app; reflexivity.

Lemma router_appends (s : GraphState) :
  audit_names (audit_of (run_stage s router_node))
  = List.app (audit_names (audit_of s)) (named ["router"]).
Proof. stage_appends run_router. Qed.

Lemma retriever_appends (s : GraphState) :
  audit_names (audit_of (run_stage s retriever_node))
  = List.app (audit_names (audit_of s)) (named ["retriever"]).
Proof. stage_appends run_retriever. Qed.

Lemma ranker_appends (s : GraphState) :
  audit_names (audit_of (run_stage s ranker_node))
  = List.app (audit_names (audit_of s)) (named ["ranker"]).
Proof. stage_appends run_ranker. Qed.

Lemma answerer_appends (s : GraphState) :
  audit_names (audit_of (run_stage s answerer_node))
  = List.app (audit_names (audit_of s)) (named ["answerer"]).
Proof. stage_appends run_answerer. Qed.

Lemma uncertainty_appends (s : GraphState) :
  audit_names (audit_of (run_stage s uncertainty_node))
  = List.app (audit_names (audit_of s)) (named ["uncertainty"]).
Proof. stage_appends run_uncertainty. Qed.

Lemma validator_appends (s : GraphState) :
  audit_names (audit_of (run_stage s validator_node))
  = List.app (audit_names (audit_of s)) (named ["validator"]).
Proof. stage_appends run_validator. Qed.

Lemma auditor_appends (s : GraphState) :
  audit_names (audit_of (run_stage s auditor_node))
  = List.app (audit_names (audit_of s)) (named ["auditor"]).
Proof. stage_appends run_auditor. Qed.

Lemma supervisor_appends (s : GraphState) :
  audit_names (audit_of (run_stage s supervisor_node))
  = List.app (audit_names (audit_of s)) (named ["supervisor"]).
Proof. stage_appends run_supervisor. Qed.

Lemma supervisor_leaves_trail (s : GraphState) :
  audit_trail (run_stage s supervisor_node)
  = Some (audit_of (run_stage s supervisor_node)).
Proof. rewrite run_supervisor; reflexivity. Qed.

(** A full run leaves a trail in the state: the records that were there,
    then one record per stage, named in the order of execution. *)
Lemma audit_trail_extends (state : GraphState) :
  audit_trail (SimplePipeline.invoke state)
  = Some (audit_of (SimplePipeline.invoke state))
  /\ audit_names (audit_of (SimplePipeline.invoke state))
     = List.app (audit_names (audit_of state)) (named STAGE_NAMES).
Proof.
  unfold SimplePipeline.invoke, STAGES; cbn [fold_left]. split.
  - apply supervisor_leaves_trail.
  - rewrite supervisor_appends, auditor_appends, validator_appends,
      uncertainty_appends, answerer_appends, ranker_appends,
      retriever_appends, router_appends.
    rewrite <- !app_assoc; reflexivity.
Qed.

(** C2. From an initial state, one that carries no audit record yet (as
    the state [{"user_query": q}] every caller builds), a full run of the
    sequential runner leaves exactly eight records in [audit_trail], and
    their node names are router, retriever, ranker, answerer, uncertainty,
    validator, auditor, supervisor, in this order. *)
Theorem audit_trail_full_run (state : GraphState)
  (Hinitial : audit_of state = []) :
  exists trail : list AuditRecord,
    audit_trail (SimplePipeline.invoke state) = Some trail
    /\ List.length trail = 8
    /\ audit_names trail
       = named [ "router"; "retriever"; "ranker"; "answerer";
                 "uncertainty"; "validator"; "auditor"; "supervisor" ].
Proof.
  destruct (audit_trail_extends state) as [Hsome Hnames].
  rewrite Hinitial in Hnames.
  revert Hsome Hnames; generalize (SimplePipeline.invoke state); intros final.
  generalize (audit_of final); intros trail Hsome Hnames.
  exists trail.
  split; [exact Hsome |]. split; [| exact Hnames].
  apply (f_equal (@List.length _)) in Hnames.
  unfold audit_names in Hnames; rewrite length_map in Hnames.
  exact Hnames.
Qed.

Lemma audit_trail_full_run_witness :
  audit_of (initial_state "How does UDA handle uncertainty?") = []
  /\ exists trail : list AuditRecord,
       audit_trail
         (SimplePipeline.invoke (initial_state "How does UDA handle uncertainty?"))
       = Some trail
       /\ List.length trail = 8
       /\ audit_names trail = named STAGE_NAMES.
Proof.
  split; [reflexivity |].
  apply (audit_trail_full_run (initial_state "How does UDA handle uncertainty?")).
  reflexivity.
Defined.

(** ** Graph backend and sequential runner *)

(** C6. On every state, running the graph that [build_graph] describes to
    the graph library (entry point router, the seven edges between the
    stages and the edge into the end) returns, and returns the state that
    the sequential runner [SimplePipeline] returns: same stages, same order,
    same merge. So the runnable [build_graph] hands out behaves the same
    whether the graph backend could be built or not. *)
Theorem fallback_equivalent (state : GraphState) :
  StateGraph.invoke build_state_graph state
  = Some (SimplePipeline.invoke state)
  /\ (forall b1 b2 : bool,
        invoke (build_graph b1) state = invoke (build_graph b2) state)
  /\ (forall b : bool,
        invoke (build_graph b) state = Some (SimplePipeline.invoke state)).
Proof.
  assert (H : StateGraph.invoke build_state_graph state
              = Some (SimplePipeline.invoke state)).
  { unfold SimplePipeline.invoke, STAGES; cbn [fold_left].
    rewrite !run_stage_update.
    reflexivity. }
  split; [exact H |].
  assert (Hb : forall b : bool,
             invoke (build_graph b) state = Some (SimplePipeline.invoke state)).
  { intros [|]; cbn [build_graph invoke]; [exact H | reflexivity]. }
  split; [| exact Hb].
  intros b1 b2; now rewrite !Hb.
Qed.

(** ** Queries of short words *)

Lemma is_space_lower (c : ascii) :
  PyStr.is_space (PyStr.lower_ascii c) = PyStr.is_space c.
Proof. destruct c as [[] [] [] [] [] [] [] []]; reflexivity. Qed.

Lemma lower_app (a b : string) :
  PyStr.lower (a ++ b) = PyStr.lower a ++ PyStr.lower b.
Proof. induction a as [| c a IH]; simpl; [reflexivity | now rewrite IH]. Qed.

Lemma is_empty_lower (s : string) :
  PyStr.is_empty (PyStr.lower s) = PyStr.is_empty s.
Proof. destruct s; reflexivity. Qed.

Lemma length_lower (s : string) :
  String.length (PyStr.lower s) = String.length s.
Proof. induction s as [| c s IH]; simpl; [reflexivity | now rewrite IH]. Qed.

Lemma split_aux_lower (s cur : string) :
  PyStr.split_aux (PyStr.lower cur) (PyStr.lower s)
  = map PyStr.lower (PyStr.split_aux cur s).
Proof.
  revert cur; induction s as [| c s IH]; intro cur; simpl.
  - rewrite is_empty_lower; destruct (PyStr.is_empty cur); reflexivity.
  - rewrite is_space_lower, is_empty_lower.
    destruct (PyStr.is_space c).
    + destruct (PyStr.is_empty cur); simpl; [apply (IH EmptyString) |].
      f_equal; apply (IH EmptyString).
    + rewrite <- IH, lower_app; reflexivity.
Qed.

(** Lowercasing a query lowercases its tokens and changes none of their
    lengths. *)
Lemma split_lower (q : string) :
  PyStr.split (PyStr.lower q) = map PyStr.lower (PyStr.split q).
Proof. apply (split_aux_lower q EmptyString). Qed.

Lemma short_tokens_no_terms (q : string) :
  (forall t, In t (PyStr.split q) -> String.length t <= 2) ->
  query_terms q = [].
Proof.
  intro Hshort; unfold query_terms; rewrite split_lower.
  induction (PyStr.split q) as [| t ts IH]; simpl; [reflexivity |].
  rewrite length_lower.
  assert (Ht : String.length t <= 2) by (apply Hshort; left; reflexivity).
  destruct (Nat.ltb_spec 2 (String.length t)); [lia |].
  apply IH; intros u Hu; apply Hshort; right; exact Hu.
Qed.

Lemma scored_of_no_terms (corpus : list Doc) : scored_of corpus [] = [].
Proof. induction corpus as [| d ds IH]; simpl; [reflexivity | exact IH]. Qed.

(** Without a term longer than two characters nothing is retrieved,
    whatever the corpus and the cut-off. *)
Lemma keyword_match_short_tokens (corpus : list Doc) (q : string) (k : nat) :
  (forall t, In t (PyStr.split q) -> String.length t <= 2) ->
  keyword_match_in corpus q k = [].
Proof.
  intro Hshort; unfold keyword_match_in.
  destruct (PyStr.is_empty q); [reflexivity |].
  rewrite (short_tokens_no_terms q Hshort), scored_of_no_terms.
  simpl; now rewrite firstn_nil.
Qed.

(** C10. When no whitespace-separated token of the query is longer than
    two characters, the retriever finds nothing, also for a query that is
    not empty, and the full run ends with the abstention message as draft,
    no citations, a validation report that says not faithful, and the
    decision ["dlq"]. *)
Theorem short_words_go_to_dlq (state : GraphState)
  (Hshort : forall t,
      In t (PyStr.split (get_or (user_query state) "")) ->
      String.length t <= 2) :
  simple_keyword_match (get_or (user_query state) "") 5 = []
  /\ retrieved_evidence (SimplePipeline.invoke state) = Some []
  /\ draft_answer (SimplePipeline.invoke state) = Some ABSTENTION
  /\ citations (SimplePipeline.invoke state) = Some []
  /\ validation_reports (SimplePipeline.invoke state)
     = Some (mkReport (Some false) ["stub"])
  /\ decision (SimplePipeline.invoke state) = Some "dlq".
Proof.
  assert (Hnone : simple_keyword_match (get_or (user_query state) "") 5 = [])
    by (apply keyword_match_short_tokens; exact Hshort).
  destruct (pipeline_fields state) as (_ & Hev & Hdraft & Hcit & Hval & Hdec).
  cbv zeta in *.
  rewrite Hnone in Hev, Hdraft, Hcit, Hval, Hdec.
  repeat split; assumption.
Qed.

Lemma short_words_go_to_dlq_witness :
  (forall t,
      In t (PyStr.split (get_or (user_query (initial_state "is it ok")) "")) ->
      String.length t <= 2)
  /\ retrieved_evidence (SimplePipeline.invoke (initial_state "is it ok")) = Some []
  /\ decision (SimplePipeline.invoke (initial_state "is it ok")) = Some "dlq".
Proof.
  assert (H : forall t,
             In t (PyStr.split (get_or (user_query (initial_state "is it ok")) "")) ->
             String.length t <= 2).
  { intros t Ht; vm_compute in Ht.
    destruct Ht as [<- | [<- | [<- | []]]]; simpl; lia. }
  split; [exact H |].
  pose proof (short_words_go_to_dlq (initial_state "is it ok") H) as P.
  split; apply P.
Defined.

(** ** Answerer with evidence *)

Lemma length_format_citations_from (ev : list Evidence) (k : nat) :
  List.length (format_citations_from k ev) = List.length ev.
Proof.
  revert k; induction ev as [| e ev IH]; intro k; simpl;
    [reflexivity | now rewrite IH].
Qed.

Lemma nth_error_format_citations_from (ev : list Evidence) (k i : nat)
  (x : Evidence) :
  nth_error ev i = Some x ->
  nth_error (format_citations_from k ev) i = Some (citation (k + i) x).
Proof.
  revert k i; induction ev as [| e ev IH]; intros k i Hx.
  - destruct i; discriminate Hx.
  - destruct i as [| i]; simpl in *.
    + injection Hx as ->; now rewrite Nat.add_0_r.
    + rewrite (IH (S k) i Hx); do 2 f_equal; lia.
Qed.

(** Where the source of a citation comes from: the [source_uri] when it is
    there and not empty; otherwise the [doc_id] when that key is there;
    otherwise the word [unknown]. *)
Lemma citation_src_cases (x : Evidence) :
  (forall u, source_uri x = Some u -> u <> EmptyString -> citation_src x = u)
  /\ (forall d, source_uri x = None \/ source_uri x = Some EmptyString ->
                doc_id x = Some d -> citation_src x = d)
  /\ (source_uri x = None \/ source_uri x = Some EmptyString ->
      doc_id x = None -> citation_src x = "unknown").
Proof.
  unfold citation_src; repeat split.
  - intros u -> Hu; destruct u; [now elim Hu | reflexivity].
  - intros d [-> | ->] ->; reflexivity.
  - intros [-> | ->] ->; reflexivity.
Qed.

(** The heading is appended when it is there and not empty, and only then. *)
Lemma citation_suffix_cases (x : Evidence) :
  (forall h, heading x = Some h -> h <> EmptyString ->
             citation_suffix x = " :: " ++ h)
  /\ (heading x = None \/ heading x = Some EmptyString ->
      citation_suffix x = EmptyString).
Proof.
  unfold citation_suffix; split.
  - intros h -> Hh; destruct h; [now elim Hh | reflexivity].
  - intros [-> | ->]; reflexivity.
Qed.

(** C4, as the code has it. With evidence [e :: rest] in the state, the
    draft is the lines [Q: query], [A (grounded):] and one line [- text] for
    each of the first [min 2 (length evidence)] items, in their order,
    joined by line feeds; there are [min 2 (length evidence)] citations; the
    citation at position [i] (counted from 1) belongs to the item quoted at
    position [i] and reads [[i] src], followed by [ :: heading] exactly when
    the item has a heading that is not empty; [src] is the [source_uri] when
    it is there and not empty, otherwise the [doc_id] when there is one,
    otherwise [unknown]. *)
Theorem answerer_quotes_and_cites (state : GraphState) (e : Evidence)
  (rest : list Evidence) (Hev : retrieved_evidence state = Some (e :: rest)) :
  let ev := e :: rest in
  let quoted := firstn (Nat.min 2 (List.length ev)) ev in
  draft_answer (answerer_node state)
  = Some (PyStr.join LF
            (List.app ["Q: " ++ get_or (user_query state) ""; "A (grounded):"]
                      (map (fun x => "- " ++ get_or (text x) "None") quoted)))
  /\ exists cites : list string,
       citations (answerer_node state) = Some cites
       /\ List.length cites = Nat.min 2 (List.length ev)
       /\ (forall (i : nat) (x : Evidence),
             nth_error quoted i = Some x ->
             nth_error cites i
             = Some ("[" ++ PyStr.str_of_nat (S i) ++ "] "
                     ++ citation_src x ++ citation_suffix x))
       /\ (forall x : Evidence,
             (forall u, source_uri x = Some u -> u <> EmptyString ->
                        citation_src x = u)
             /\ (forall d,
                   source_uri x = None \/ source_uri x = Some EmptyString ->
                   doc_id x = Some d -> citation_src x = d)
             /\ (source_uri x = None \/ source_uri x = Some EmptyString ->
                 doc_id x = None -> citation_src x = "unknown")
             /\ (forall h, heading x = Some h -> h <> EmptyString ->
                           citation_suffix x = " :: " ++ h)
             /\ (heading x = None \/ heading x = Some EmptyString ->
                 citation_suffix x = EmptyString)).
Proof.
  cbv zeta.
  assert (Hq : firstn (Nat.min 2 (List.length (e :: rest))) (e :: rest)
               = firstn 2 (e :: rest)).
  { destruct rest as [| e' rest]; reflexivity. }
  rewrite Hq.
  unfold answerer_node; rewrite Hev; cbn [get_or draft_and_citations].
  cbn [draft_answer citations].
  split; [reflexivity |].
  exists (format_citations (firstn 2 (e :: rest))).
  split; [reflexivity |].
  split.
  { unfold format_citations.
    rewrite length_format_citations_from, length_firstn; reflexivity. }
  split.
  { intros i x Hx; unfold format_citations.
    rewrite (nth_error_format_citations_from _ 1 i x Hx); reflexivity. }
  intro x.
  destruct (citation_src_cases x) as (H1 & H2 & H3).
  destruct (citation_suffix_cases x) as (H4 & H5).
  repeat split; assumption.
Qed.

Lemma answerer_quotes_and_cites_witness :
  retrieved_evidence
    (state_with "data uncertainty" (simple_keyword_match "data uncertainty" 5))
  = Some (map with_score [(1, nth 0 CORPUS (mkDoc "" "" "" "" []));
                          (1, nth 1 CORPUS (mkDoc "" "" "" "" []))])
  /\ draft_answer
       (answerer_node
          (state_with "data uncertainty"
             (simple_keyword_match "data uncertainty" 5)))
     = Some ("Q: data uncertainty" ++ LF ++ "A (grounded):" ++ LF
             ++ "- Universal Data Assistant provides precise, cited answers using RAG."
             ++ LF
             ++ "- UDA tracks token-level uncertainty via logprob entropy and span aggregation.").
Proof.
  split; [reflexivity |].
  exact (proj1
           (answerer_quotes_and_cites
              (state_with "data uncertainty"
                 (simple_keyword_match "data uncertainty" 5))
              (with_score (1, nth 0 CORPUS (mkDoc "" "" "" "" [])))
              [with_score (1, nth 1 CORPUS (mkDoc "" "" "" "" []))]
              eq_refl)).
Defined.

(** The claim C4 read to the letter fails on an item whose [source_uri] is
    the empty string: the key is not missing, yet the citation names the
    [doc_id], where the claim has [[1] ] followed by the (empty) uri. *)
Lemma citation_of_empty_source_uri :
  source_uri unsourced_item = Some EmptyString
  /\ heading unsourced_item = None
  /\ citations (answerer_node (state_with "q" [unsourced_item]))
     = Some ["[1] doc-9"]
  /\ citations (answerer_node (state_with "q" [unsourced_item]))
     <> Some ["[1] " ++ EmptyString].
Proof.
  repeat split; try reflexivity.
  vm_compute; discriminate.
Qed.

(** ** Retriever *)

Section SortDesc.

Context {A : Type}.

Lemma insert_desc_perm (x : nat * A) (l : list (nat * A)) :
  Permutation (insert_desc x l) (x :: l).
Proof.
  induction l as [| y l IH]; simpl; [apply Permutation_refl |].
  destruct (fst x <? fst y)%nat; [| apply Permutation_refl].
  apply perm_trans with (y :: x :: l); [now apply perm_skip | apply perm_swap].
Qed.

Lemma sort_desc_perm (l : list (nat * A)) : Permutation (sort_desc l) l.
Proof.
  induction l as [| x l IH]; simpl; [apply perm_nil |].
  apply perm_trans with (x :: sort_desc l);
    [apply insert_desc_perm | now apply perm_skip].
Qed.

Lemma insert_desc_sorted (x : nat * A) (l : list (nat * A)) :
  StronglySorted key_ge l -> StronglySorted key_ge (insert_desc x l).
Proof.
  induction 1 as [| y l Hl IH Hy]; simpl.
  - constructor; constructor.
  - destruct (Nat.ltb_spec (fst x) (fst y)) as [Hlt | Hge].
    + constructor; [exact IH |].
      apply (Permutation_Forall (Permutation_sym (insert_desc_perm x l))).
      constructor; [unfold key_ge; lia | exact Hy].
    + constructor; [constructor; assumption |].
      constructor; [exact Hge |].
      apply (Forall_impl _ (P := key_ge y)); [| exact Hy].
      unfold key_ge; intros z Hz; lia.
Qed.

Lemma sort_desc_sorted (l : list (nat * A)) :
  StronglySorted key_ge (sort_desc l).
Proof.
  induction l as [| x l IH]; simpl;
    [constructor | now apply insert_desc_sorted].
Qed.

(** Stability: an element is put in front of the elements of its own key
    that were behind it. *)
Lemma insert_desc_filter (v : nat) (x : nat * A) (l : list (nat * A)) :
  filter (fun p => (fst p =? v)%nat) (insert_desc x l)
  = filter (fun p => (fst p =? v)%nat) (x :: l).
Proof.
  induction l as [| y l IH]; [reflexivity |].
  cbn [insert_desc].
  destruct (Nat.ltb_spec (fst x) (fst y)) as [Hlt | Hge]; [| reflexivity].
  cbn [filter] in *.
  destruct (Nat.eqb_spec (fst y) v) as [Hy | Hy];
    destruct (Nat.eqb_spec (fst x) v) as [Hx | Hx];
    try lia; rewrite IH; reflexivity.
Qed.

Lemma sort_desc_stable (v : nat) (l : list (nat * A)) :
  filter (fun p => (fst p =? v)%nat) (sort_desc l)
  = filter (fun p => (fst p =? v)%nat) l.
Proof.
  induction l as [| x l IH]; [reflexivity |].
  cbn [sort_desc]; rewrite insert_desc_filter.
  cbn [filter]; rewrite IH; reflexivity.
Qed.

End SortDesc.

Lemma filter_map_lower (l : list string) :
  filter (fun t => (2 <? String.length t)%nat) (map PyStr.lower l)
  = map PyStr.lower (filter (fun t => (2 <? String.length t)%nat) l).
Proof.
  induction l as [| t l IH]; simpl; [reflexivity |].
  rewrite length_lower, IH.
  destruct (2 <? String.length t)%nat; reflexivity.
Qed.

(** The terms of the code are the kept tokens of the query, lowercased. *)
Lemma query_terms_kept (query : string) :
  query_terms query = map PyStr.lower (kept_tokens query).
Proof.
  unfold query_terms, kept_tokens; rewrite split_lower; apply filter_map_lower.
Qed.

Lemma doc_score_occurrences (query : string) (d : Doc) :
  doc_score (query_terms query) d = occurrences query d.
Proof.
  unfold doc_score, occurrences; rewrite query_terms_kept, map_map; reflexivity.
Qed.

Lemma scored_of_hits (corpus : list Doc) (query : string) :
  scored_of corpus (query_terms query)
  = map (fun d => (occurrences query d, d))
        (filter (fun d => (0 <? occurrences query d)%nat) corpus).
Proof.
  unfold scored_of.
  induction corpus as [| d ds IH]; simpl; [reflexivity |].
  rewrite doc_score_occurrences, IH.
  destruct (0 <? occurrences query d)%nat; reflexivity.
Qed.

Section Keyed.

Variable f : Doc -> nat.

Let pair_of (d : Doc) : nat * Doc := (f d, d).

Lemma keyed_shape (l : list (nat * Doc)) :
  Forall (fun p => fst p = f (snd p)) l -> l = map pair_of (map snd l).
Proof.
  induction 1 as [| [n d] l Hp _ IH]; simpl; [reflexivity |].
  simpl in Hp; subst n; unfold pair_of at 1; now rewrite <- IH.
Qed.

Lemma keyed_sorted (l : list Doc) :
  StronglySorted key_ge (map pair_of l) ->
  StronglySorted (fun a b => f b <= f a) l.
Proof.
  induction l as [| d l IH]; simpl; intro H; [constructor |].
  inversion H as [| ? ? Hl Hd]; subst.
  constructor; [now apply IH |].
  rewrite Forall_map in Hd; exact Hd.
Qed.

Lemma keyed_filter (v : nat) (l : list Doc) :
  map snd (filter (fun p => (fst p =? v)%nat) (map pair_of l))
  = filter (fun d => (f d =? v)%nat) l.
Proof.
  induction l as [| d l IH]; simpl; [reflexivity |].
  destruct (f d =? v)%nat; simpl; now rewrite IH.
Qed.

Lemma keyed_sort_desc (l : list Doc) :
  sort_desc (map pair_of l) = map pair_of (map snd (sort_desc (map pair_of l))).
Proof.
  apply keyed_shape.
  apply (Permutation_Forall (Permutation_sym (sort_desc_perm _))).
  rewrite Forall_map; apply Forall_forall; intros d _; reflexivity.
Qed.

End Keyed.

Lemma in_firstn {A : Type} (n : nat) (l : list A) (x : A) :
  In x (firstn n l) -> In x l.
Proof.
  revert l; induction n as [| n IH]; intros [| y l]; simpl; try tauto.
  intros [-> | H]; [now left | right; now apply IH].
Qed.

Lemma empty_query_no_hits (corpus : list Doc) :
  filter (fun d => (0 <? occurrences EmptyString d)%nat) corpus = [].
Proof. induction corpus as [| d ds IH]; [reflexivity | exact IH]. Qed.

(** The ranking, stated with the score the code computes. *)
Lemma ranking_by_occurrences (corpus : list Doc) (query : string) :
  (exists ranked : list Doc,
      Permutation ranked
        (filter (fun d => (0 <? occurrences query d)%nat) corpus)
      /\ StronglySorted
           (fun a b => occurrences query b <= occurrences query a) ranked
      /\ (forall v : nat,
            filter (fun d => (occurrences query d =? v)%nat) ranked
            = filter (fun d => (occurrences query d =? v)%nat)
                (filter (fun d => (0 <? occurrences query d)%nat) corpus))
      /\ keyword_match_in corpus query 5
         = map (scored_doc query) (firstn 5 ranked))
  /\ List.length (keyword_match_in corpus query 5) <= 5
  /\ Forall (fun e => exists d, In d corpus
                                /\ 0 < occurrences query d
                                /\ e = scored_doc query d)
            (keyword_match_in corpus query 5)
  /\ keyword_match_in corpus EmptyString 5 = []
  /\ (forall state : GraphState,
        retrieved_evidence (retriever_node state)
        = Some (keyword_match_in CORPUS (get_or (user_query state) "") 5)).
Proof.
  set (hits := filter (fun d => (0 <? occurrences query d)%nat) corpus).
  set (pairs := map (fun d => (occurrences query d, d)) hits).
  set (ranked := map snd (sort_desc pairs)).
  assert (Hshape : sort_desc pairs
                   = map (fun d => (occurrences query d, d)) ranked)
    by apply keyed_sort_desc.
  assert (Hperm : Permutation ranked hits).
  { unfold ranked.
    replace hits with (map snd pairs)
      by (unfold pairs; rewrite map_map; apply map_id).
    apply Permutation_map, sort_desc_perm. }
  assert (Hres : keyword_match_in corpus query 5
                 = map (scored_doc query) (firstn 5 ranked)).
  { unfold keyword_match_in.
    destruct (PyStr.is_empty query) eqn:Hq.
    - destruct query; [| discriminate Hq].
      unfold ranked, pairs, hits.
      rewrite empty_query_no_hits; reflexivity.
    - rewrite scored_of_hits; fold hits; fold pairs.
      rewrite Hshape, firstn_map, map_map; reflexivity. }
  split.
  { exists ranked. split; [exact Hperm |]. split.
    - apply keyed_sorted; rewrite <- Hshape; apply sort_desc_sorted.
    - split; [| exact Hres].
      intro v.
      rewrite <- (keyed_filter (occurrences query) v ranked).
      rewrite <- Hshape, sort_desc_stable.
      apply keyed_filter. }
  split.
  { rewrite Hres, length_map, length_firstn; lia. }
  split.
  { rewrite Hres; apply Forall_forall; intros e He.
    apply in_map_iff in He; destruct He as (d & <- & Hd).
    apply in_firstn in Hd.
    apply (Permutation_in _ Hperm) in Hd.
    apply filter_In in Hd; destruct Hd as [Hin Hpos].
    exists d; repeat split; [exact Hin | now apply Nat.ltb_lt].
  }
  split; reflexivity.
Qed.

Lemma index_of_nothing (sub : string) (p : nat) :
  sub <> EmptyString -> index p sub EmptyString = None.
Proof. destruct sub; [intro H; now elim H |]; destruct p; reflexivity. Qed.

Lemma occurrences_from_shift (sub s : string) (c : ascii) (fuel p : nat) :
  occurrences_from fuel (S p) sub (String c s) = occurrences_from fuel p sub s.
Proof.
  revert p; induction fuel as [| fuel IH]; intro p; [reflexivity |].
  cbn [occurrences_from index].
  destruct (index p sub s) as [n |]; [| reflexivity].
  cbn [Nat.add]; now rewrite IH.
Qed.

(** The count of the code is the count by searching on. *)
Lemma count_from_occurrences (sub : string) :
  sub <> EmptyString ->
  forall (s : string) (k fuel : nat),
    String.length s < fuel ->
    occurrences_from fuel k sub s = PyStr.count_from k sub s.
Proof.
  intros Hsub s; induction s as [| c s IH]; intros k fuel Hfuel.
  - destruct fuel as [| fuel]; [simpl in Hfuel; lia |].
    cbn [occurrences_from PyStr.count_from].
    now rewrite (index_of_nothing sub k Hsub).
  - destruct fuel as [| fuel]; [simpl in Hfuel; lia |].
    cbn [String.length] in Hfuel.
    destruct k as [| k].
    + cbn [occurrences_from PyStr.count_from index].
      destruct (prefix sub (String c s)).
      * destruct sub as [| a sub']; [now elim Hsub |].
        cbn [String.length Nat.add Nat.sub].
        rewrite occurrences_from_shift, Nat.sub_0_r.
        f_equal; apply IH; lia.
      * rewrite <- (IH 0 (S fuel)) by lia.
        cbn [occurrences_from].
        destruct (index 0 sub s) as [n |]; [| reflexivity].
        cbn [Nat.add]; now rewrite occurrences_from_shift.
    + cbn [occurrences_from PyStr.count_from index].
      rewrite <- (IH k (S fuel)) by lia.
      cbn [occurrences_from].
      destruct (index k sub s) as [n |]; [| reflexivity].
      cbn [Nat.add]; now rewrite occurrences_from_shift.
Qed.

Lemma count_occurrences (s sub : string) :
  sub <> EmptyString -> PyStr.count s sub = occurrences_in sub s.
Proof.
  intro Hsub; unfold PyStr.count, occurrences_in.
  destruct sub as [| a sub']; [now elim Hsub |].
  cbn [PyStr.is_empty]; symmetry.
  apply count_from_occurrences; [discriminate | lia].
Qed.

Lemma kept_token_not_empty (query t : string) :
  In t (kept_tokens query) -> PyStr.lower t <> EmptyString.
Proof.
  intro Ht; unfold kept_tokens in Ht.
  apply filter_In in Ht; destruct Ht as [_ Hlen].
  apply Nat.ltb_lt in Hlen; rewrite <- (length_lower t) in Hlen.
  intro He; rewrite He in Hlen; simpl in Hlen; lia.
Qed.

Lemma occurrences_token_hits (query : string) (d : Doc) :
  occurrences query d = token_hits query d.
Proof.
  unfold occurrences, token_hits; f_equal.
  apply map_ext_in; intros t Ht.
  apply count_occurrences, (kept_token_not_empty query t Ht).
Qed.

Lemma scored_doc_evidence_of (query : string) (d : Doc) :
  scored_doc query d = evidence_of query d.
Proof.
  unfold scored_doc, with_score, evidence_of; cbn [fst snd].
  now rewrite occurrences_token_hits.
Qed.

Lemma strongly_sorted_impl {A : Type} (R R' : A -> A -> Prop) (l : list A) :
  (forall a b, R a b -> R' a b) -> StronglySorted R l -> StronglySorted R' l.
Proof.
  intros HR; induction 1 as [| a l Hl IH Ha]; constructor; [exact IH |].
  apply (Forall_impl _ (HR a)), Ha.
Qed.

(** C5. For every query and corpus: the evidence handed out is made of the
    first five of [ranked], where [ranked] holds exactly the documents whose
    score is not 0, by falling score, documents of equal score standing as
    they stand in the corpus. The score of a document is the number of
    occurrences in its lowercased text of the query's whitespace-separated
    tokens longer than two characters, lowercased, each token's occurrences
    counted by searching on behind the last one found. Every item handed
    out carries the five entries of its document and, under [score], this
    number as a float. At most five come back, the empty query gives none,
    and the evidence the stage writes is this function of the query and the
    corpus. On the built-in corpus, a query in capitals finds the documents
    with their scores, the higher score first, and equal scores in corpus
    order; a token found twice in a text scores 2. *)
Theorem retriever_ranking (corpus : list Doc) (query : string) :
  (exists ranked : list Doc,
      Permutation ranked
        (filter (fun d => (0 <? token_hits query d)%nat) corpus)
      /\ StronglySorted
           (fun a b => token_hits query b <= token_hits query a) ranked
      /\ (forall v : nat,
            filter (fun d => (token_hits query d =? v)%nat) ranked
            = filter (fun d => (token_hits query d =? v)%nat)
                (filter (fun d => (0 <? token_hits query d)%nat) corpus))
      /\ keyword_match_in corpus query 5
         = map (evidence_of query) (firstn 5 ranked))
  /\ List.length (keyword_match_in corpus query 5) <= 5
  /\ Forall (fun e => exists d : Doc,
                 In d corpus
                 /\ 0 < token_hits query d
                 /\ doc_id e = Some (d_doc_id d)
                 /\ heading e = Some (d_heading d)
                 /\ text e = Some (d_text d)
                 /\ source_uri e = Some (d_source_uri d)
                 /\ security_tags e = Some (d_security_tags d)
                 /\ score e = Some (float_of_nat (token_hits query d)))
            (keyword_match_in corpus query 5)
  /\ keyword_match_in corpus EmptyString 5 = []
  /\ (forall state : GraphState,
        retrieved_evidence (retriever_node state)
        = Some (keyword_match_in CORPUS (get_or (user_query state) "") 5))
  /\ map id_and_score (simple_keyword_match "DATA Uncertainty ENTROPY" 5)
     = [(Some "doc-2", Some 2%float); (Some "doc-1", Some 1%float)]
  /\ map id_and_score (simple_keyword_match "data uncertainty" 5)
     = [(Some "doc-1", Some 1%float); (Some "doc-2", Some 1%float)]
  /\ map id_and_score
       (keyword_match_in
          [mkDoc "fruit" "" "Banana bandana, BANANA" "" []] "ANA an" 5)
     = [(Some "fruit", Some 3%float)].
Proof.
  destruct (ranking_by_occurrences corpus query)
    as ((ranked & Hperm & Hsorted & Hstable & Hres) & Hlen & _ & Hempty & Hnode).
  assert (Hpos : forall l : list Doc,
             filter (fun d => (0 <? occurrences query d)%nat) l
             = filter (fun d => (0 <? token_hits query d)%nat) l).
  { intro l; apply filter_ext; intro d; now rewrite occurrences_token_hits. }
  assert (Heqv : forall (v : nat) (l : list Doc),
             filter (fun d => (occurrences query d =? v)%nat) l
             = filter (fun d => (token_hits query d =? v)%nat) l).
  { intros v l; apply filter_ext; intro d; now rewrite occurrences_token_hits. }
  assert (Hres' : keyword_match_in corpus query 5
                  = map (evidence_of query) (firstn 5 ranked)).
  { rewrite Hres; apply map_ext; intro d; apply scored_doc_evidence_of. }
  split.
  { exists ranked. split; [now rewrite <- Hpos |]. split.
    - apply (strongly_sorted_impl
               (fun a b => occurrences query b <= occurrences query a));
        [| exact Hsorted].
      intros a b; now rewrite !occurrences_token_hits.
    - split; [| exact Hres'].
      intro v; rewrite <- !Heqv, <- Hpos; apply Hstable. }
  split; [exact Hlen |].
  split.
  { rewrite Hres'; apply Forall_forall; intros e He.
    apply in_map_iff in He; destruct He as (d & <- & Hd).
    apply in_firstn in Hd.
    apply (Permutation_in _ Hperm) in Hd.
    apply filter_In in Hd; destruct Hd as [Hin Hp].
    exists d; split; [exact Hin |].
    split; [rewrite <- occurrences_token_hits; now apply Nat.ltb_lt |].
    repeat split. }
  split; [exact Hempty |].
  split; [exact Hnode |].
  split; [vm_compute; reflexivity |].
  split; vm_compute; reflexivity.
Qed.

(** ** Dead-letter queue *)

Lemma str_app_assoc (a b c : string) : (a ++ b) ++ c = a ++ (b ++ c).
Proof. induction a as [| x a IH]; simpl; [reflexivity | now rewrite IH]. Qed.

Lemma str_app_nil_r (a : string) : a ++ EmptyString = a.
Proof. induction a as [| x a IH]; simpl; [reflexivity | now rewrite IH]. Qed.

Lemma has_non_space_app (a b : string) :
  PyStr.has_non_space (a ++ b)
  = PyStr.has_non_space a || PyStr.has_non_space b.
Proof.
  induction a as [| x a IH]; simpl; [reflexivity |].
  rewrite IH; apply orb_assoc.
Qed.

(** Reading leaves a line without carriage return as it is. *)
Lemma universal_newlines_line (l rest : string) :
  one_line l = true ->
  universal_newlines (l ++ (LF ++ rest))
  = l ++ (LF ++ universal_newlines rest).
Proof.
  induction l as [| c l IH]; intro Hl.
  - reflexivity.
  - cbn [one_line] in Hl.
    apply andb_prop in Hl; destruct Hl as [Hc Hl].
    apply andb_prop in Hc; destruct Hc as [_ Hcr].
    apply negb_true_iff in Hcr.
    cbn [append universal_newlines]; rewrite Hcr.
    now rewrite (IH Hl).
Qed.

Lemma universal_newlines_lines (ls : list string) :
  Forall (fun l => one_line l = true) ls ->
  universal_newlines (concat_lines ls) = concat_lines ls.
Proof.
  induction 1 as [| l ls Hl _ IH]; [reflexivity |].
  cbn [concat_lines]; rewrite (universal_newlines_line _ _ Hl), IH.
  reflexivity.
Qed.

(** The line iterator cuts after the first line feed. *)
Lemma lines_aux_line (l cur rest : string) :
  one_line l = true ->
  lines_aux cur (l ++ (LF ++ rest))
  = (cur ++ (l ++ LF)) :: lines_aux EmptyString rest.
Proof.
  revert cur; induction l as [| c l IH]; intros cur Hl.
  - reflexivity.
  - cbn [one_line] in Hl.
    apply andb_prop in Hl; destruct Hl as [Hc Hl].
    apply andb_prop in Hc; destruct Hc as [Hlf _].
    apply negb_true_iff in Hlf.
    cbn [append lines_aux]; rewrite Hlf.
    rewrite (IH _ Hl), str_app_assoc; reflexivity.
Qed.

Lemma read_lines_concat (ls : list string) :
  Forall (fun l => one_line l = true) ls ->
  read_lines (concat_lines ls) = map (fun l => l ++ LF) ls.
Proof.
  intro H; unfold read_lines; rewrite (universal_newlines_lines ls H).
  induction H as [| l ls Hl _ IH]; [reflexivity |].
  cbn [concat_lines map]; rewrite (lines_aux_line _ _ _ Hl), IH.
  reflexivity.
Qed.

Section RoundTrip.

Variable J : Type.
Variable dumps : J -> string.
Variable loads : string -> option J.

(** What the queue needs of the JSON library on the records put in: the
    text of a record is one line (line breaks inside strings are written
    escaped), is not blank, and reads back as the record. *)
Hypothesis dumps_one_line : forall j, one_line (dumps j) = true.
Hypothesis dumps_not_blank : forall j, PyStr.has_non_space (dumps j) = true.
Hypothesis loads_dumps : forall j, loads (dumps j ++ LF) = Some j.

Lemma enqueue_all_lines (items : list J) (file : string) :
  enqueue_all J dumps file items
  = file ++ concat_lines (map dumps items).
Proof.
  unfold enqueue_all; revert file.
  induction items as [| j items IH]; intro file; cbn [fold_left map concat_lines].
  - now rewrite str_app_nil_r.
  - rewrite IH; unfold enqueue; now rewrite !str_app_assoc.
Qed.

Lemma stream_lines_records (items : list J) (rest : list string) :
  stream_lines J loads (List.app (map (fun j => dumps j ++ LF) items) rest)
  = fold_right yield (stream_lines J loads rest) items.
Proof.
  induction items as [| j items IH]; [reflexivity |].
  cbn [map List.app stream_lines fold_right].
  rewrite has_non_space_app, dumps_not_blank, loads_dumps, IH; reflexivity.
Qed.


Lemma yield_all (items more : list J) :
  fold_right yield (Exhausted more) items = Exhausted (List.app items more).
Proof.
  induction items as [| j items IH]; [reflexivity |].
  cbn [fold_right]; rewrite IH; reflexivity.
Qed.


End RoundTrip.


(** * Further properties *)

(** ** The whole run in closed form *)

Lemma uncertainty_of_evidence (ev : list Evidence) :
  aggregate_uncertainty
    (match ev with
     | _ :: _ => [mkSpan 0 10 (Some 0.1%float)]
     | [] => [mkSpan 0 10 (Some 1.2%float)]
     end)
  = mkUncertainty (Some (overall_of ev)) [mkSpan 0 10 (Some (overall_of ev))].
Proof. destruct ev; vm_compute; reflexivity. Qed.

Lemma flag_of_evidence (ev : list Evidence) :
  PrimFloat.ltb 0.8%float (overall_of ev) || negb (has_evidence ev)
  = negb (has_evidence ev).
Proof. destruct ev; reflexivity. Qed.

Lemma decision_of_evidence (ev : list Evidence) :
  supervisor_decision (has_evidence ev) (overall_of ev) = decision_of ev.
Proof. rewrite supervisor_decision_faithful; reflexivity. Qed.

Lemma has_evidence_match (ev : list Evidence) :
  match ev with [] => false | _ :: _ => true end = has_evidence ev.
Proof. reflexivity. Qed.

Ltac project_all :=
  cbn [user_query intent retrieved_evidence draft_answer citations
       uncertainty validation_reports decision audit_trail get_or
       overall faithful].

Ltac unfold_stage E :=
  rewrite E;
  unfold router_node, retriever_node, ranker_node, answerer_node,
    uncertainty_node, validator_node, auditor_node, supervisor_node,
    audit_append, audit_of, read_overall, read_faithful;
  cbn [user_query intent retrieved_evidence draft_answer citations
       uncertainty validation_reports decision audit_trail get_or
       overall faithful].

(** A run of the sequential pipeline, field by field. *)
Lemma invoke_closed_form (state : GraphState) :
  SimplePipeline.invoke state = final_state state.
Proof.
  name_stages state.
  unfold final_state; cbv zeta.
  remember (get_or (user_query state) "") as q eqn:Hq.
  remember (simple_keyword_match q 5) as ev eqn:Hev.
  remember (audit_of state) as a0 eqn:Ha0.
  set (recs := stage_records q ev).
  assert (H1 : s1 = mkState (user_query state) (Some (intent_of q))
                      (retrieved_evidence state) (draft_answer state)
                      (citations state) (uncertainty state)
                      (validation_reports state) (decision state)
                      (Some (List.app a0 (firstn 1 recs)))).
  { unfold_stage E1; rewrite <- Hq; fold (audit_of state); rewrite <- Ha0.
    reflexivity. }
  clear E1.
  assert (H2 : s2 = mkState (user_query state) (Some (intent_of q))
                      (Some ev) (draft_answer state)
                      (citations state) (uncertainty state)
                      (validation_reports state) (decision state)
                      (Some (List.app a0 (firstn 2 recs)))).
  { unfold_stage E2; rewrite H1; project_all.
    rewrite <- Hq, <- Hev, <- app_assoc; reflexivity. }
  clear E2 H1.
  assert (H3 : s3 = mkState (user_query state) (Some (intent_of q))
                      (Some ev) (draft_answer state)
                      (citations state) (uncertainty state)
                      (validation_reports state) (decision state)
                      (Some (List.app a0 (firstn 3 recs)))).
  { unfold_stage E3; rewrite H2; project_all.
    rewrite <- app_assoc; reflexivity. }
  clear E3 H2.
  assert (H4 : s4 = mkState (user_query state) (Some (intent_of q))
                      (Some ev) (Some (fst (draft_and_citations q ev)))
                      (Some (snd (draft_and_citations q ev))) (uncertainty state)
                      (validation_reports state) (decision state)
                      (Some (List.app a0 (firstn 4 recs)))).
  { unfold_stage E4; rewrite H3; project_all; rewrite <- Hq.
    unfold recs, stage_records.
    destruct (draft_and_citations q ev) as [d c].
    cbn [audit_trail fst snd]; rewrite <- app_assoc; reflexivity. }
  clear E4 H3.
  assert (H5 : s5 = mkState (user_query state) (Some (intent_of q))
                      (Some ev) (Some (fst (draft_and_citations q ev)))
                      (Some (snd (draft_and_citations q ev))) (Some (mkUncertainty (Some (overall_of ev)) [mkSpan 0 10 (Some (overall_of ev))]))
                      (validation_reports state) (decision state)
                      (Some (List.app a0 (firstn 5 recs)))).
  { unfold_stage E5; rewrite H4; project_all.
    rewrite uncertainty_of_evidence; cbn [overall opt_float_val].
    rewrite <- app_assoc; reflexivity. }
  clear E5 H4.
  assert (H6 : s6 = mkState (user_query state) (Some (intent_of q))
                      (Some ev) (Some (fst (draft_and_citations q ev)))
                      (Some (snd (draft_and_citations q ev))) (Some (mkUncertainty (Some (overall_of ev)) [mkSpan 0 10 (Some (overall_of ev))]))
                      (Some (mkReport (Some (has_evidence ev)) ["stub"])) (decision state)
                      (Some (List.app a0 (firstn 6 recs)))).
  { unfold_stage E6; rewrite H5; project_all.
    rewrite has_evidence_match, <- app_assoc; reflexivity. }
  clear E6 H5.
  assert (H7 : s7 = mkState (user_query state) (Some (intent_of q))
                      (Some ev) (Some (fst (draft_and_citations q ev)))
                      (Some (snd (draft_and_citations q ev))) (Some (mkUncertainty (Some (overall_of ev)) [mkSpan 0 10 (Some (overall_of ev))]))
                      (Some (mkReport (Some (has_evidence ev)) ["stub"])) (decision state)
                      (Some (List.app a0 (firstn 7 recs)))).
  { unfold_stage E7; rewrite H6; project_all.
    rewrite flag_of_evidence, <- app_assoc; reflexivity. }
  clear E7 H6.
  unfold_stage E8; rewrite H7; project_all.
  rewrite decision_of_evidence, <- app_assoc.
  reflexivity.
Qed.

Lemma compiled_graph_invoke (state : GraphState) :
  StateGraph.invoke build_state_graph state = Some (SimplePipeline.invoke state).
Proof.
  unfold SimplePipeline.invoke, STAGES; cbn [fold_left].
  rewrite !run_stage_update; reflexivity.
Qed.

Lemma length_citations_of (q : string) (ev : list Evidence) :
  List.length (snd (draft_and_citations q ev)) = Nat.min 2 (List.length ev).
Proof.
  destruct ev as [| e ev]; [reflexivity |].
  cbn [draft_and_citations snd]; unfold format_citations.
  rewrite length_format_citations_from, length_firstn; reflexivity.
Qed.

Lemma draft_not_empty (q : string) (ev : list Evidence) :
  fst (draft_and_citations q ev) <> EmptyString.
Proof. destruct ev; cbn; discriminate. Qed.


(** X2. The trail is only ever appended to: after a run the state's trail
    is the trail it came with, record for record, followed by exactly eight
    new records. *)
Theorem run_appends_to_trail (state : GraphState) :
  exists added : list AuditRecord,
    audit_trail (SimplePipeline.invoke state)
    = Some (List.app (audit_of state) added)
    /\ List.length added = 8
    /\ audit_names added = named STAGE_NAMES.
Proof.
  rewrite invoke_closed_form.
  exists (stage_records (get_or (user_query state) "")
            (simple_keyword_match (get_or (user_query state) "") 5)).
  repeat split.
Qed.

(** X3. What the eight records of a run say agrees with the state the run
    returns: the retriever's [hits] and the ranker's [kept] are the number
    of evidence items in the state, the answerer's [len] is the length of
    the draft, the validator's [faithful] and the supervisor's [decision]
    are the state's, and the auditor's [flag] is raised exactly when the
    decision is [dlq]. *)
Theorem trail_agrees_with_state (state : GraphState) :
  let out := SimplePipeline.invoke state in
  exists (ev : list Evidence) (draft dec : string) (added : list AuditRecord),
    retrieved_evidence out = Some ev
    /\ draft_answer out = Some draft
    /\ decision out = Some dec
    /\ audit_trail out = Some (List.app (audit_of state) added)
    /\ option_map (lookup "hits") (nth_error added 1)
       = Some (Some (VInt (Z.of_nat (List.length ev))))
    /\ option_map (lookup "kept") (nth_error added 2)
       = Some (Some (VInt (Z.of_nat (List.length ev))))
    /\ option_map (lookup "len") (nth_error added 3)
       = Some (Some (VInt (Z.of_nat (String.length draft))))
    /\ option_map (lookup "faithful") (nth_error added 5)
       = Some (Some (VBool (has_evidence ev)))
    /\ option_map (lookup "flag") (nth_error added 6)
       = Some (Some (VBool (String.eqb dec "dlq")))
    /\ option_map (lookup "decision") (nth_error added 7)
       = Some (Some (VStr dec)).
Proof.
  cbv zeta; rewrite invoke_closed_form; unfold final_state; cbv zeta.
  cbn [retrieved_evidence draft_answer decision audit_trail].
  eexists; eexists; eexists; eexists.
  split; [reflexivity |]. split; [reflexivity |]. split; [reflexivity |].
  split; [reflexivity |].
  repeat split.
  destruct (simple_keyword_match _ _); reflexivity.
Qed.

(** X4. A run looks at nothing in the state but the query and the trail:
    two states with the same query come out with the same intent, evidence,
    draft, citations, uncertainty, validation report and decision, whatever
    else they held before. *)
Theorem run_ignores_stale_fields (s1 s2 : GraphState)
  (Hquery : user_query s1 = user_query s2) :
  intent (SimplePipeline.invoke s1) = intent (SimplePipeline.invoke s2)
  /\ retrieved_evidence (SimplePipeline.invoke s1)
     = retrieved_evidence (SimplePipeline.invoke s2)
  /\ draft_answer (SimplePipeline.invoke s1)
     = draft_answer (SimplePipeline.invoke s2)
  /\ citations (SimplePipeline.invoke s1) = citations (SimplePipeline.invoke s2)
  /\ uncertainty (SimplePipeline.invoke s1)
     = uncertainty (SimplePipeline.invoke s2)
  /\ validation_reports (SimplePipeline.invoke s1)
     = validation_reports (SimplePipeline.invoke s2)
  /\ decision (SimplePipeline.invoke s1) = decision (SimplePipeline.invoke s2).
Proof.
  rewrite !invoke_closed_form; unfold final_state; cbv zeta.
  cbn [intent retrieved_evidence draft_answer citations uncertainty
       validation_reports decision].
  rewrite Hquery; repeat split.
Qed.

Lemma run_ignores_stale_fields_witness :
  user_query (initial_state "data uncertainty")
  = user_query (mkState (Some "data uncertainty") (Some "policy") (Some [])
                  (Some "old draft") None None None (Some "dlq") None)
  /\ decision (SimplePipeline.invoke (initial_state "data uncertainty"))
     = decision
         (SimplePipeline.invoke
            (mkState (Some "data uncertainty") (Some "policy") (Some [])
               (Some "old draft") None None None (Some "dlq") None)).
Proof.
  split; [reflexivity |].
  apply (run_ignores_stale_fields (initial_state "data uncertainty")
           (mkState (Some "data uncertainty") (Some "policy") (Some [])
              (Some "old draft") None None None (Some "dlq") None)).
  reflexivity.
Defined.

(** X5. Running the pipeline again on the state it returned gives the same
    answer fields once more and appends a second set of eight records behind
    the first. *)
Theorem run_twice (state : GraphState) :
  let once := SimplePipeline.invoke state in
  let twice := SimplePipeline.invoke once in
  draft_answer twice = draft_answer once
  /\ citations twice = citations once
  /\ decision twice = decision once
  /\ retrieved_evidence twice = retrieved_evidence once
  /\ audit_names (audit_of twice)
     = List.app (audit_names (audit_of state))
         (List.app (named STAGE_NAMES) (named STAGE_NAMES)).
Proof.
  cbv zeta; rewrite !invoke_closed_form; unfold final_state; cbv zeta.
  cbn [user_query draft_answer citations decision retrieved_evidence
       audit_trail audit_of get_or].
  repeat split.
  unfold audit_names; rewrite !map_app, <- app_assoc; reflexivity.
Qed.

(** ** The API entry point *)

(** X6. Whichever runnable [build_graph] handed out, [chat] returns a
    payload for every message; its answer is never the empty string, its
    decision is [answer] or [dlq], it carries at most two citations, and it
    carries none exactly when the decision is [dlq], in which case the
    answer is the abstention message; uncertainty and validation are always
    filled in. *)
Theorem chat_payload (backend_works : bool) (message : string) :
  exists p : AnswerPayload,
    chat (build_graph backend_works) message = Some p
    /\ answer p <> EmptyString
    /\ (p_decision p = "answer" \/ p_decision p = "dlq")
    /\ List.length (p_citations p) <= 2
    /\ (p_decision p = "dlq" <-> p_citations p = [])
    /\ (p_decision p = "dlq" -> answer p = ABSTENTION)
    /\ p_uncertainty p <> None
    /\ p_validation p <> None.
Proof.
  assert (Hrun : invoke (build_graph backend_works) (initial_state message)
                 = Some (final_state (initial_state message))).
  { rewrite <- invoke_closed_form.
    destruct backend_works; cbn [build_graph invoke];
      [apply compiled_graph_invoke | reflexivity]. }
  unfold chat; rewrite Hrun; cbn [option_map].
  eexists; split; [reflexivity |].
  unfold payload_of, final_state; cbv zeta.
  cbn [draft_answer citations uncertainty validation_reports decision get_or
       answer p_decision p_citations p_uncertainty p_validation
       user_query initial_state].
  split; [apply draft_not_empty |].
  split; [unfold decision_of; destruct (has_evidence _); auto |].
  split; [rewrite length_citations_of; lia |].
  destruct (simple_keyword_match message 5) as [| e ev].
  - repeat split; try discriminate; reflexivity.
  - split; [| split; [| split; discriminate]].
    + split; [discriminate |].
      intro Hnil; apply (f_equal (@List.length _)) in Hnil.
      rewrite length_citations_of in Hnil; simpl in Hnil; discriminate Hnil.
    + discriminate.
Qed.

(** ** Single stages on any state *)

(** X7. The auditor is advisory: it changes no field of the state but the
    trail, to which it adds one record, and the supervisor decides the same
    with or without it. Its flag and the decision never disagree: whenever
    the supervisor sends a state to [dlq] the flag on that state is raised,
    and an unraised flag means the decision is [answer]. *)
Theorem auditor_is_advisory (state : GraphState) :
  let after := run_stage state auditor_node in
  (user_query after = user_query state
   /\ intent after = intent state
   /\ retrieved_evidence after = retrieved_evidence state
   /\ draft_answer after = draft_answer state
   /\ citations after = citations state
   /\ uncertainty after = uncertainty state
   /\ validation_reports after = validation_reports state
   /\ decision after = decision state)
  /\ decision (supervisor_node after) = decision (supervisor_node state)
  /\ exists flag : bool,
       audit_of after
       = List.app (audit_of state) [[("node", VStr "auditor"); ("flag", VBool flag)]]
       /\ (decision (supervisor_node state) = Some "dlq" -> flag = true)
       /\ (flag = false -> decision (supervisor_node state) = Some "answer").
Proof.
  cbv zeta; rewrite run_auditor.
  split; [repeat split |].
  split; [reflexivity |].
  exists (PrimFloat.ltb 0.8%float (read_overall state)
          || negb (read_faithful state)).
  split; [reflexivity |].
  unfold supervisor_node; cbn [decision].
  rewrite supervisor_decision_faithful.
  destruct (read_faithful state); cbn [negb].
  - split; [discriminate | reflexivity].
  - rewrite orb_true_r; split; [reflexivity | discriminate].
Qed.

(** X8. On every state the answerer writes a draft that is not the empty
    string and at most two citations, one for each of the first two
    evidence items, and the length it records in the trail is the length of
    that draft. *)
Theorem answerer_draft_never_empty (state : GraphState) :
  exists (draft : string) (cites : list string),
    draft_answer (answerer_node state) = Some draft
    /\ citations (answerer_node state) = Some cites
    /\ draft <> EmptyString
    /\ List.length cites
       = Nat.min 2 (List.length (get_or (retrieved_evidence state) []))
    /\ audit_trail (answerer_node state)
       = Some (List.app (audit_of state)
                 [[("node", VStr "answerer");
                   ("len", VInt (Z.of_nat (String.length draft)))]]).
Proof.
  unfold answerer_node.
  pose proof (draft_not_empty (get_or (user_query state) "")
                (get_or (retrieved_evidence state) [])) as Hne.
  pose proof (length_citations_of (get_or (user_query state) "")
                (get_or (retrieved_evidence state) [])) as Hlen.
  destruct (draft_and_citations _ _) as [d c]; cbn [fst snd] in *.
  exists d, c; repeat split; assumption.
Qed.

(** X9. [format_citations] gives one citation per item of any list, in the
    order of the list and numbered from 1; it does not fail on an item that
    lacks keys: an item with neither [source_uri] nor [doc_id] nor heading
    is cited as [[i] unknown]. *)
Theorem format_citations_each_item (ev : list Evidence) :
  List.length (format_citations ev) = List.length ev
  /\ (forall (i : nat) (x : Evidence),
        nth_error ev i = Some x ->
        nth_error (format_citations ev) i
        = Some ("[" ++ PyStr.str_of_nat (S i) ++ "] "
                ++ citation_src x ++ citation_suffix x))
  /\ (forall (i : nat) (x : Evidence),
        nth_error ev i = Some x ->
        source_uri x = None -> doc_id x = None -> heading x = None ->
        nth_error (format_citations ev) i
        = Some ("[" ++ PyStr.str_of_nat (S i) ++ "] unknown")).
Proof.
  unfold format_citations.
  split; [apply length_format_citations_from |].
  split.
  - intros i x Hx.
    rewrite (nth_error_format_citations_from ev 1 i x Hx); reflexivity.
  - intros i x Hx Hs Hd Hh.
    rewrite (nth_error_format_citations_from ev 1 i x Hx).
    unfold citation, citation_src, citation_suffix.
    rewrite Hs, Hd, Hh; reflexivity.
Qed.

(** ** Letter case and cut-off *)

Lemma keyword_match_lower (corpus : list Doc) (q1 q2 : string) (k : nat) :
  PyStr.lower q1 = PyStr.lower q2 ->
  keyword_match_in corpus q1 k = keyword_match_in corpus q2 k.
Proof.
  intro H; unfold keyword_match_in, query_terms.
  rewrite <- (is_empty_lower q1), <- (is_empty_lower q2), H; reflexivity.
Qed.

Lemma intent_of_lower (q1 q2 : string) :
  PyStr.lower q1 = PyStr.lower q2 -> intent_of q1 = intent_of q2.
Proof. intro H; unfold intent_of; rewrite H; reflexivity. Qed.

(** X10. Letter case in the query changes nothing but the quotation of the
    query in the draft: two states whose queries are equal once lowercased
    come out of a run with the same intent, the same evidence with the same
    scores, the same citations, uncertainty, validation report and
    decision. *)
Theorem run_case_insensitive (s1 s2 : GraphState)
  (Hcase : PyStr.lower (get_or (user_query s1) "")
           = PyStr.lower (get_or (user_query s2) "")) :
  intent (SimplePipeline.invoke s1) = intent (SimplePipeline.invoke s2)
  /\ retrieved_evidence (SimplePipeline.invoke s1)
     = retrieved_evidence (SimplePipeline.invoke s2)
  /\ citations (SimplePipeline.invoke s1) = citations (SimplePipeline.invoke s2)
  /\ uncertainty (SimplePipeline.invoke s1)
     = uncertainty (SimplePipeline.invoke s2)
  /\ validation_reports (SimplePipeline.invoke s1)
     = validation_reports (SimplePipeline.invoke s2)
  /\ decision (SimplePipeline.invoke s1) = decision (SimplePipeline.invoke s2).
Proof.
  rewrite !invoke_closed_form; unfold final_state; cbv zeta.
  cbn [intent retrieved_evidence citations uncertainty validation_reports
       decision].
  rewrite (intent_of_lower _ _ Hcase).
  unfold simple_keyword_match.
  rewrite (keyword_match_lower CORPUS _ _ 5 Hcase).
  split; [reflexivity |]. split; [reflexivity |].
  split; [| repeat split].
  destruct (keyword_match_in CORPUS (get_or (user_query s2) "") 5);
    reflexivity.
Qed.

Lemma run_case_insensitive_witness :
  PyStr.lower (get_or (user_query (initial_state "What is our GDPR Policy on DATA")) "")
  = PyStr.lower (get_or (user_query (initial_state "what is our gdpr policy on data")) "")
  /\ intent (SimplePipeline.invoke (initial_state "What is our GDPR Policy on DATA"))
     = intent (SimplePipeline.invoke (initial_state "what is our gdpr policy on data")).
Proof.
  split; [reflexivity |].
  apply (run_case_insensitive
           (initial_state "What is our GDPR Policy on DATA")
           (initial_state "what is our gdpr policy on data")).
  reflexivity.
Defined.

Lemma length_sorted_scored (corpus : list Doc) (query : string) :
  List.length (sort_desc (scored_of corpus (query_terms query)))
  <= List.length corpus.
Proof.
  rewrite (Permutation_length (sort_desc_perm _)), scored_of_hits, length_map.
  apply filter_length_le.
Qed.

(** X11. The cut-off only cuts. For cut-offs [0 <= k <= k'], what
    [simple_keyword_match] returns for [k] is the first [k] items of what
    it returns for [k'] (so the default of 3 gives the first three of the
    retriever's five), never more than [k] items and never more than the
    corpus holds. A negative cut-off does not give nothing: it gives all
    hits but the last [-k]. On three documents that all match, cut-off 1
    gives the best one, cut-off 2 the best two, and cut-off -1 also the
    best two. *)
Theorem retriever_cutoff (corpus : list Doc) (query : string) (k k' : Z)
  (Hk : (0 <= k <= k')%Z) :
  keyword_match_cut corpus query k
  = firstn (Z.to_nat k) (keyword_match_cut corpus query k')
  /\ List.length (keyword_match_cut corpus query k) <= Z.to_nat k
  /\ List.length (keyword_match_cut corpus query k) <= List.length corpus
  /\ keyword_match_cut corpus query k
     = keyword_match_in corpus query (Z.to_nat k)
  /\ (forall j : Z,
        (j < 0)%Z ->
        keyword_match_cut corpus query j
        = firstn
            (List.length
               (keyword_match_cut corpus query (Z.of_nat (List.length corpus)))
             - Z.to_nat (- j))
            (keyword_match_cut corpus query (Z.of_nat (List.length corpus))))
  /\ map doc_id (keyword_match_cut THREE_DOCS "data" 1) = [Some "b"]
  /\ map doc_id (keyword_match_cut THREE_DOCS "data" 2) = [Some "b"; Some "c"]
  /\ map doc_id (keyword_match_cut THREE_DOCS "data" 5)
     = [Some "b"; Some "c"; Some "a"]
  /\ map doc_id (keyword_match_cut THREE_DOCS "data" (-1))
     = [Some "b"; Some "c"].
Proof.
  pose proof (length_sorted_scored corpus query) as Hlen.
  unfold keyword_match_cut, keyword_match_in, slice_to.
  destruct (PyStr.is_empty query).
  - rewrite firstn_nil; cbn [List.length].
    split; [reflexivity |]. split; [lia |]. split; [lia |].
    split; [reflexivity |].
    split; [intros j _; now rewrite firstn_nil |].
    repeat split.
  - cbv zeta.
    set (scored := sort_desc (scored_of corpus (query_terms query))) in *.
    destruct (Z.leb_spec 0 k) as [_ | Hneg]; [| lia].
    destruct (Z.leb_spec 0 k') as [_ | Hneg]; [| lia].
    split.
    { rewrite firstn_map, firstn_firstn, Nat.min_l by lia; reflexivity. }
    split; [rewrite length_map, length_firstn; lia |].
    split; [rewrite length_map, length_firstn; lia |].
    split; [reflexivity |].
    split; [| repeat split].
    intros j Hj.
    destruct (Z.leb_spec 0 j) as [Hpos | _]; [lia |].
    destruct (Z.leb_spec 0 (Z.of_nat (List.length corpus))) as [_ | Hc]; [| lia].
    rewrite Nat2Z.id.
    replace (firstn (List.length corpus) scored) with scored
      by (symmetry; apply firstn_all2; exact Hlen).
    rewrite length_map, firstn_map; reflexivity.
Qed.

Lemma retriever_cutoff_witness :
  (0 <= 1 <= 2)%Z
  /\ keyword_match_cut THREE_DOCS "data" 1
     = firstn (Z.to_nat 1) (keyword_match_cut THREE_DOCS "data" 2)
  /\ List.length (keyword_match_cut THREE_DOCS "data" 1) = 1
  /\ List.length (keyword_match_cut THREE_DOCS "data" 2) = 2.
Proof.
  assert (H : (0 <= 1 <= 2)%Z) by lia.
  split; [exact H |].
  split; [exact (proj1 (retriever_cutoff THREE_DOCS "data" 1 2 H)) |].
  split; reflexivity.
Defined.

(** ** More on the dead-letter queue *)

Lemma one_line_app (a b : string) :
  one_line (a ++ b) = one_line a && one_line b.
Proof.
  induction a as [| c a IH]; simpl; [reflexivity |].
  rewrite IH; now rewrite !andb_assoc.
Qed.

Lemma yield_raised {J : Type} (items more : list J) :
  fold_right yield (Raised more) items = Raised (List.app items more).
Proof.
  induction items as [| j items IH]; [reflexivity |].
  cbn [fold_right]; rewrite IH; reflexivity.
Qed.

Section Queue.

Variable J : Type.
Variable dumps : J -> string.
Variable loads : string -> option J.

Lemma stream_lines_app (l1 l2 : list string) :
  stream_lines J loads (List.app l1 l2)
  = match stream_lines J loads l1 with
    | Exhausted rs => fold_right yield (stream_lines J loads l2) rs
    | Raised rs => Raised rs
    end.
Proof.
  induction l1 as [| l l1 IH]; [reflexivity |].
  cbn [List.app stream_lines].
  destruct (PyStr.has_non_space l); [| exact IH].
  destruct (loads l) as [j |]; [| reflexivity].
  rewrite IH; destruct (stream_lines J loads l1); reflexivity.
Qed.

Hypothesis dumps_one_line : forall j, one_line (dumps j) = true.
Hypothesis dumps_not_blank : forall j, PyStr.has_non_space (dumps j) = true.
Hypothesis loads_dumps : forall j, loads (dumps j ++ LF) = Some j.

Lemma dumps_lines (items : list J) :
  Forall (fun l => one_line l = true) (map dumps items).
Proof.
  rewrite Forall_map; apply Forall_forall; intros j _; apply dumps_one_line.
Qed.

Lemma stream_records (items : list J) :
  stream_lines J loads (map (fun l => l ++ LF) (map dumps items))
  = Exhausted items.
Proof.
  rewrite map_map, <- (app_nil_r (map _ items)).
  rewrite (stream_lines_records J dumps loads dumps_not_blank loads_dumps).
  cbn [stream_lines]; rewrite yield_all; now rewrite app_nil_r.
Qed.

(** X12. Enqueueing never disturbs what is queued: on a file of whole
    lines that streams the records [old] without error, enqueueing [items]
    gives a file that streams [old] followed by [items]. *)
Theorem enqueue_keeps_queued (ls : list string) (old items : list J)
  (Hlines : Forall (fun l => one_line l = true) ls)
  (Hold : stream J loads (concat_lines ls) = Exhausted old) :
  stream J loads (enqueue_all J dumps (concat_lines ls) items)
  = Exhausted (List.app old items).
Proof.
  unfold stream in *.
  rewrite (read_lines_concat ls Hlines) in Hold.
  rewrite (enqueue_all_lines J dumps).
  replace (concat_lines ls ++ concat_lines (map dumps items))
    with (concat_lines (List.app ls (map dumps items))).
  - rewrite read_lines_concat
      by (apply Forall_app; split; [exact Hlines | apply dumps_lines]).
    rewrite map_app, stream_lines_app, Hold, stream_records.
    apply yield_all.
  - clear; induction ls as [| l ls IH]; cbn [List.app concat_lines append];
      [reflexivity |].
    rewrite IH, !str_app_assoc; reflexivity.
Qed.

(** X13. A line that [json.loads] rejects stops the stream: the records
    queued before it are yielded, then the error is raised, and nothing
    queued behind the line is delivered. *)
Theorem stream_stops_at_bad_line (items : list J) (bad : string)
  (behind : list string)
  (Hbad_line : one_line bad = true)
  (Hbad_text : PyStr.has_non_space bad = true)
  (Hbad : loads (bad ++ LF) = None)
  (Hbehind : Forall (fun l => one_line l = true) behind) :
  stream J loads
    (enqueue_all J dumps fresh items ++ concat_lines (bad :: behind))
  = Raised items.
Proof.
  unfold stream.
  rewrite (enqueue_all_lines J dumps); cbn [fresh append].
  replace (concat_lines (map dumps items) ++ concat_lines (bad :: behind))
    with (concat_lines (List.app (map dumps items) (bad :: behind))).
  - rewrite read_lines_concat
      by (apply Forall_app; split;
          [apply dumps_lines | constructor; assumption]).
    rewrite map_app, stream_lines_app, stream_records.
    cbn [map stream_lines].
    rewrite has_non_space_app, Hbad_text, Hbad; cbn [orb].
    rewrite yield_raised; now rewrite app_nil_r.
  - clear; induction (map dumps items) as [| l ls IH];
      cbn [List.app concat_lines append]; [reflexivity |].
    rewrite IH, !str_app_assoc; reflexivity.
Qed.

(** X14. [enqueue] writes no separator in front of a record: on a file
    whose last line is unfinished (text [pre] with no line end), the
    record's text continues that line, so the file reads as the single line
    [pre] followed by the record, and the stream yields whatever
    [json.loads] makes of that line, or raises when it rejects it. *)
Theorem enqueue_after_unfinished_line (pre : string) (j : J)
  (Hpre : one_line pre = true) :
  read_lines (enqueue J dumps pre j) = [pre ++ (dumps j ++ LF)]
  /\ stream J loads (enqueue J dumps pre j)
     = match loads (pre ++ (dumps j ++ LF)) with
       | Some x => Exhausted [x]
       | None => Raised []
       end.
Proof.
  assert (Hread : read_lines (enqueue J dumps pre j)
                  = [pre ++ (dumps j ++ LF)]).
  { unfold enqueue.
    replace (pre ++ (dumps j ++ LF)) with (concat_lines [pre ++ dumps j])
      by (cbn [concat_lines]; now rewrite str_app_nil_r, str_app_assoc).
    rewrite read_lines_concat.
    - cbn [map concat_lines].
      now rewrite str_app_nil_r, !str_app_assoc.
    - constructor; [| constructor].
      now rewrite one_line_app, Hpre, dumps_one_line. }
  split; [exact Hread |].
  unfold stream; rewrite Hread; cbn [stream_lines].
  rewrite !has_non_space_app, dumps_not_blank, orb_true_r; cbn [orb].
  destruct (loads (pre ++ (dumps j ++ LF))); reflexivity.
Qed.

(** X15. Blank lines are passed over wherever they stand: a file of whole
    lines, each either whitespace only or the text of a record, streams
    exactly its records, in the order of their lines. *)
Theorem stream_skips_blank_lines (es : list (string + J))
  (Hblank : Forall (fun e => match e with
                             | inl ws => blank_line ws
                             | inr _ => True
                             end) es) :
  stream J loads (concat_lines (map (entry_text dumps) es))
  = Exhausted (entry_records es).
Proof.
  unfold stream; rewrite read_lines_concat.
  - induction Hblank as [| [ws | j] es He _ IH]; [reflexivity | |];
      cbn [map entry_text entry_records stream_lines].
    + destruct He as [_ Hws].
      rewrite has_non_space_app, Hws; cbn [orb PyStr.has_non_space PyStr.is_space LF].
      exact IH.
    + rewrite has_non_space_app, dumps_not_blank, loads_dumps; cbn [orb].
      rewrite IH; reflexivity.
  - rewrite Forall_map.
    apply (Forall_impl _ (P := fun e => match e with
                                        | inl ws => blank_line ws
                                        | inr _ => True
                                        end)); [| exact Hblank].
    intros [ws | j] He; cbn [entry_text];
      [apply He | apply dumps_one_line].
Qed.

End Queue.

Lemma sample_one_line (r : sample_record) : one_line (sample_dumps r) = true.
Proof. destruct r; reflexivity. Qed.

Lemma sample_not_blank (r : sample_record) :
  PyStr.has_non_space (sample_dumps r) = true.
Proof. destruct r; reflexivity. Qed.

Lemma sample_loads_dumps (r : sample_record) :
  sample_loads (sample_dumps r ++ LF) = Some r.
Proof. destruct r; reflexivity. Qed.

Lemma enqueue_keeps_queued_witness :
  Forall (fun l => one_line l = true) [sample_dumps No_evidence; "  "]
  /\ stream sample_record sample_loads
       (concat_lines [sample_dumps No_evidence; "  "])
     = Exhausted [No_evidence]
  /\ stream sample_record sample_loads
       (enqueue_all sample_record sample_dumps
          (concat_lines [sample_dumps No_evidence; "  "]) [Needs_review])
     = Exhausted [No_evidence; Needs_review].
Proof.
  assert (H1 : Forall (fun l => one_line l = true)
                 [sample_dumps No_evidence; "  "])
    by (repeat constructor).
  split; [exact H1 |]. split; [reflexivity |].
  apply (enqueue_keeps_queued sample_record sample_dumps sample_loads
           sample_one_line sample_not_blank sample_loads_dumps
           [sample_dumps No_evidence; "  "] [No_evidence] [Needs_review] H1).
  reflexivity.
Defined.

Lemma stream_stops_at_bad_line_witness :
  one_line "{oops" = true
  /\ PyStr.has_non_space "{oops" = true
  /\ sample_loads ("{oops" ++ LF) = None
  /\ stream sample_record sample_loads
       (enqueue_all sample_record sample_dumps fresh [No_evidence]
        ++ concat_lines ["{oops"; sample_dumps Needs_review])
     = Raised [No_evidence].
Proof.
  split; [reflexivity |]. split; [reflexivity |]. split; [reflexivity |].
  apply (stream_stops_at_bad_line sample_record sample_dumps sample_loads
           sample_one_line sample_not_blank sample_loads_dumps
           [No_evidence] "{oops" [sample_dumps Needs_review]);
    try reflexivity.
  repeat constructor.
Defined.

Lemma enqueue_after_unfinished_line_witness :
  one_line "{" = true
  /\ stream sample_record sample_loads
       (enqueue sample_record sample_dumps "{" No_evidence)
     = Raised [].
Proof.
  split; [reflexivity |].
  exact (proj2 (enqueue_after_unfinished_line sample_record sample_dumps
                  sample_loads sample_one_line sample_not_blank
                  "{" No_evidence eq_refl)).
Defined.

Lemma stream_skips_blank_lines_witness :
  Forall (fun e : string + sample_record =>
            match e with inl ws => blank_line ws | inr _ => True end)
         [inl " "; inr No_evidence; inl ""; inr Needs_review]
  /\ stream sample_record sample_loads
       (concat_lines
          (map (entry_text sample_dumps)
               [inl " "; inr No_evidence; inl ""; inr Needs_review]))
     = Exhausted [No_evidence; Needs_review].
Proof.
  assert (H : Forall (fun e : string + sample_record =>
                        match e with inl ws => blank_line ws | inr _ => True end)
                [inl " "; inr No_evidence; inl ""; inr Needs_review]).
  { repeat constructor. }
  split; [exact H |].
  apply (stream_skips_blank_lines sample_record sample_dumps sample_loads
           sample_one_line sample_not_blank sample_loads_dumps _ H).
Defined.

(** ** Chunking and ingestion *)

Lemma substring_no_length (i : nat) (s : string) :
  substring i 0 s = EmptyString.
Proof.
  revert i; induction s as [| c s IH]; intros [| i]; simpl; auto.
Qed.

Lemma substring_append (s : string) (i a b : nat) :
  substring i a s ++ substring (i + a) b s = substring i (a + b) s.
Proof.
  revert i a; induction s as [| c s IH]; intros i a.
  - destruct i, a; reflexivity.
  - destruct i as [| i].
    + destruct a as [| a]; [reflexivity |].
      cbn [Nat.add substring append]; f_equal.
      apply (IH 0 a).
    + cbn [Nat.add substring]; apply IH.
Qed.

Lemma substring_past_end (s : string) (i m : nat) :
  String.length s - i <= m ->
  substring i m s = substring i (String.length s - i) s.
Proof.
  revert i m; induction s as [| c s IH]; intros i m Hm.
  - destruct i, m; reflexivity.
  - destruct i as [| i].
    + destruct m as [| m]; [simpl in Hm; lia |].
      cbn [String.length Nat.sub substring]; f_equal.
      rewrite (IH 0 m) by (simpl in Hm; lia).
      now rewrite Nat.sub_0_r.
    + cbn [String.length Nat.sub substring]; apply IH.
      simpl in Hm; exact Hm.
Qed.

Lemma substring_whole (s : string) : substring 0 (String.length s) s = s.
Proof. induction s as [| c s IH]; simpl; [reflexivity | now rewrite IH]. Qed.

Lemma length_substring (s : string) (i m : nat) :
  String.length (substring i m s) = Nat.min m (String.length s - i).
Proof.
  revert i m; induction s as [| c s IH]; intros i m.
  - destruct i, m; reflexivity.
  - destruct i as [| i].
    + destruct m as [| m]; [reflexivity |].
      cbn [substring String.length]; rewrite (IH 0 m).
      rewrite Nat.sub_0_r; reflexivity.
    + cbn [substring String.length Nat.sub]; apply IH.
Qed.

Lemma range_up_below (fuel i stop step j : nat) :
  In j (range_up fuel i stop step) -> j < stop.
Proof.
  revert i; induction fuel as [| fuel IH]; intros i Hj; [destruct Hj |].
  cbn [range_up] in Hj.
  destruct (Nat.ltb_spec i stop) as [Hlt | Hge]; [| destruct Hj].
  destruct Hj as [<- | Hj]; [exact Hlt | exact (IH _ Hj)].
Qed.

(** The parts cut from [i] on are the text from [i] on. *)
Lemma glue_parts (s : string) (m fuel i : nat) :
  0 < m -> String.length s - i <= fuel ->
  glue (map (fun j => substring j m s) (range_up fuel i (String.length s) m))
  = substring i (String.length s - i) s.
Proof.
  intro Hm; revert i; induction fuel as [| fuel IH]; intros i Hfuel.
  - replace (String.length s - i) with 0 by lia.
    now rewrite substring_no_length.
  - cbn [range_up].
    destruct (Nat.ltb_spec i (String.length s)) as [Hlt | Hge].
    + cbn [map glue fold_right]; fold (glue (map (fun j => substring j m s)
                (range_up fuel (i + m) (String.length s) m))).
      rewrite IH by lia.
      rewrite substring_append.
      destruct (Nat.le_gt_cases (i + m) (String.length s)) as [Hle | Hgt].
      * f_equal; lia.
      * replace (String.length s - (i + m)) with 0 by lia.
        rewrite Nat.add_0_r; apply substring_past_end; lia.
    + replace (String.length s - i) with 0 by lia.
      now rewrite substring_no_length.
Qed.

Lemma glue_app (a b : list string) : glue (List.app a b) = glue a ++ glue b.
Proof.
  induction a as [| x a IH]; [reflexivity |].
  cbn [List.app glue fold_right]; fold (glue (List.app a b)); fold (glue a).
  now rewrite IH, str_app_assoc.
Qed.

Section ChunkProps.

Variable hash : string -> Z.
Variable doc : NormalizedDoc.

Lemma section_chunks_cut (max_len : Z) (sec : DocSection) :
  (0 < max_len)%Z ->
  exists cs, section_chunks hash doc max_len sec = Some cs
             /\ glue (map c_text cs) = section_text sec
             /\ Forall (well_cut hash doc max_len) cs
             /\ Forall (fun c => c_heading c = sec_heading sec) cs.
Proof.
  intro Hpos; unfold section_chunks, py_range, section_text.
  destruct (Z.eqb_spec max_len 0) as [H0 | _]; [lia |].
  destruct (Z.ltb_spec max_len 0) as [Hneg | _]; [lia |].
  set (text := get_or (sec_text sec) "").
  set (m := Z.to_nat max_len).
  assert (Hm : 0 < m) by (unfold m; lia).
  eexists; split; [reflexivity |].
  split; [| split].
  - rewrite map_map; cbn [c_text].
    rewrite (glue_parts text m (String.length text) 0 Hm) by lia.
    rewrite Nat.sub_0_r; apply substring_whole.
  - rewrite Forall_map; apply Forall_forall; intros j Hj.
    apply range_up_below in Hj.
    unfold well_cut; cbn [c_text c_doc_id c_source_uri c_hash].
    rewrite length_substring; repeat split; lia.
  - rewrite Forall_map; apply Forall_forall; intros j _; reflexivity.
Qed.

End ChunkProps.

(** X16. With a positive [max_len], [simple_chunk_sections] returns
    chunks that, put end to end, are the texts of the sections put end to
    end: nothing is lost, repeated or reordered. No chunk is empty, none is
    longer than [max_len], and each carries the document's id and source and
    the hash of its own text. *)
Theorem chunks_reassemble (hash : string -> Z) (doc : NormalizedDoc)
  (max_len : Z) (Hpos : (0 < max_len)%Z) :
  exists chunks : list Chunk,
    simple_chunk_sections hash doc max_len = Some chunks
    /\ glue (map c_text chunks)
       = glue (map section_text (get_or (sections doc) []))
    /\ Forall (well_cut hash doc max_len) chunks.
Proof.
  unfold simple_chunk_sections.
  induction (get_or (sections doc) []) as [| sec secs IH].
  - exists []; repeat split; constructor.
  - destruct (section_chunks_cut hash doc max_len sec Hpos)
      as (cs & Hcs & Hglue & Hcut & _).
    destruct IH as (cs' & Hcs' & Hglue' & Hcut').
    exists (List.app cs cs'); cbn [chunk_sections].
    rewrite Hcs, Hcs'; split; [reflexivity |].
    split; [| apply Forall_app; split; assumption].
    rewrite map_app, glue_app, Hglue, Hglue'; reflexivity.
Qed.

Lemma chunks_reassemble_witness :
  (0 < 4)%Z
  /\ exists chunks : list Chunk,
       simple_chunk_sections (fun s => Z.of_nat (String.length s))
         (mkNormalized (mkMeta "a.txt" "text/plain" "a.txt")
            (Some [mkSection None (Some "Intro") (Some "abcdefghij");
                   mkSection None None None;
                   mkSection None None (Some "xyz")])) 4
       = Some chunks
       /\ glue (map c_text chunks) = "abcdefghijxyz".
Proof.
  split; [lia |].
  destruct (chunks_reassemble (fun s => Z.of_nat (String.length s))
              (mkNormalized (mkMeta "a.txt" "text/plain" "a.txt")
                 (Some [mkSection None (Some "Intro") (Some "abcdefghij");
                        mkSection None None None;
                        mkSection None None (Some "xyz")])) 4 eq_refl)
    as (chunks & Hc & Hglue & _).
  exists chunks; split; [exact Hc | exact Hglue].
Defined.

(** X17. The edges of [max_len]. With [max_len = 0] the call raises as
    soon as the document has a section, whatever its text; a negative
    [max_len] raises nothing and returns no chunk at all, dropping every
    text; and a document without sections gives no chunk and no error for
    any [max_len]. *)
Theorem chunk_size_edges (hash : string -> Z) (meta : DocumentMeta) :
  (forall (sec : DocSection) (rest : list DocSection),
      simple_chunk_sections hash (mkNormalized meta (Some (sec :: rest))) 0
      = None)
  /\ (forall (secs : option (list DocSection)) (max_len : Z),
        (max_len < 0)%Z ->
        simple_chunk_sections hash (mkNormalized meta secs) max_len = Some [])
  /\ (forall max_len : Z,
        simple_chunk_sections hash (mkNormalized meta None) max_len = Some []
        /\ simple_chunk_sections hash (mkNormalized meta (Some [])) max_len
           = Some []).
Proof.
  split; [reflexivity |].
  split; [| intro; split; reflexivity].
  intros secs max_len Hneg; unfold simple_chunk_sections; cbn [sections].
  induction (get_or secs []) as [| sec l IH]; [reflexivity |].
  cbn [chunk_sections]; unfold section_chunks, py_range.
  destruct (Z.eqb_spec max_len 0) as [H0 | _]; [lia |].
  destruct (Z.ltb_spec max_len 0) as [_ | Hge]; [| lia].
  cbn [map]; rewrite IH; reflexivity.
Qed.

(** X18. Chunking what [normalize_document] made of a blob, with a positive
    [max_len], returns chunks whose texts put end to end are the decoded
    blob; every chunk names the given uri as its document and its source
    and has no heading. *)
Theorem ingest_then_chunk (decode : list Byte.byte -> string)
  (hash : string -> Z) (blob : list Byte.byte) (uri : string) (max_len : Z)
  (Hpos : (0 < max_len)%Z) :
  exists chunks : list Chunk,
    simple_chunk_sections hash (normalize_document decode blob uri) max_len
    = Some chunks
    /\ glue (map c_text chunks) = decode blob
    /\ Forall (fun c => c_doc_id c = uri /\ c_source_uri c = uri
                        /\ c_heading c = None
                        /\ 1 <= String.length (c_text c) <= Z.to_nat max_len)
              chunks.
Proof.
  unfold simple_chunk_sections, normalize_document; cbn [sections get_or].
  cbn [chunk_sections].
  destruct (section_chunks_cut hash
              (mkNormalized (mkMeta uri "text/plain" uri)
                 (Some [mkSection (Some (uri ++ "#0")) None
                          (Some (decode blob))]))
              max_len
              (mkSection (Some (uri ++ "#0")) None (Some (decode blob)))
              Hpos)
    as (cs & Hcs & Hglue & Hcut & Hhead).
  rewrite Hcs; exists (List.app cs []); split; [reflexivity |].
  rewrite app_nil_r; split; [exact Hglue |].
  apply Forall_forall; intros c Hc.
  rewrite Forall_forall in Hcut, Hhead.
  destruct (Hcut c Hc) as (Hlen & Hid & Hsrc & _).
  repeat split; try apply Hlen; [exact Hid | exact Hsrc | exact (Hhead c Hc)].
Qed.

Lemma ingest_then_chunk_witness :
  (0 < 400)%Z
  /\ exists chunks : list Chunk,
       simple_chunk_sections (fun _ => 0%Z)
         (normalize_document (fun _ => "decoded text") [] "file://a") 400
       = Some chunks
       /\ glue (map c_text chunks) = "decoded text".
Proof.
  split; [lia |].
  destruct (ingest_then_chunk (fun _ => "decoded text") (fun _ => 0%Z)
              [] "file://a" 400 eq_refl) as (chunks & Hc & Hglue & _).
  exists chunks; split; [exact Hc | exact Hglue].
Defined.

(** X19. [batch_ingest] pairs blobs and uris position by position and
    stops with the shorter list: it returns [min] of the two lengths many
    documents, the one at position [i] made of the blob and the uri at
    position [i]; blobs or uris beyond that are dropped without an error. *)
Theorem batch_ingest_pairs (decode : list Byte.byte -> string)
  (blobs : list (list Byte.byte)) (uris : list string) :
  List.length (batch_ingest decode blobs uris)
  = Nat.min (List.length blobs) (List.length uris)
  /\ (forall (i : nat) (b : list Byte.byte) (u : string),
        nth_error blobs i = Some b -> nth_error uris i = Some u ->
        nth_error (batch_ingest decode blobs uris) i
        = Some (normalize_document decode b u)).
Proof.
  revert uris; induction blobs as [| b blobs IH]; intros [| u uris];
    cbn [batch_ingest List.length Nat.min]; try (split; [reflexivity |]).
  - intros [| i] ? ? H; discriminate H.
  - intros [| i] ? ? H; discriminate H.
  - intros [| i] ? ? _ H; discriminate H.
  - destruct (IH uris) as [Hlen Hnth].
    split; [now rewrite Hlen |].
    intros [| i] b' u' Hb Hu; cbn [nth_error] in *.
    + now injection Hb as ->; injection Hu as ->.
    + now apply Hnth.
Qed.

(** ** Logging *)

(** X20. [setup_logging] installs its handler once: on a logger without
    handlers it adds the one stdout handler and sets the level; on a logger
    that has a handler it changes nothing, not even the level asked for. So
    calling it again, with any level, changes nothing, and it never leaves
    the logger without a handler. *)
Theorem setup_logging_once (level level' : Z) (logger : Logger) :
  setup_logging level' (setup_logging level logger)
  = setup_logging level logger
  /\ lg_handlers (setup_logging level logger) <> []
  /\ (lg_handlers logger = [] ->
      setup_logging level logger = mkLogger [stdout_handler] level)
  /\ (lg_handlers logger <> [] -> setup_logging level logger = logger)
  /\ List.length (lg_handlers (setup_logging level logger))
     = Nat.max 1 (List.length (lg_handlers logger)).
Proof.
  unfold setup_logging; destruct logger as [[| h hs] lv]; cbn.
  - repeat split; try discriminate. intro H; now elim H.
  - repeat split; try discriminate.
Qed.

(** ** Which documents are retrieved *)

Lemma prefix_of_nothing (sub : string) :
  sub <> EmptyString -> prefix sub EmptyString = false.
Proof. destruct sub; [intro H; now elim H | reflexivity]. Qed.

Lemma count_from_contains (sub s : string) :
  sub <> EmptyString ->
  (0 < PyStr.count_from 0 sub s <-> PyStr.contains sub s = true).
Proof.
  intro Hsub; induction s as [| c s IH].
  - cbn [PyStr.count_from PyStr.contains].
    rewrite (prefix_of_nothing sub Hsub); cbn; split; [lia | discriminate].
  - cbn [PyStr.count_from PyStr.contains].
    destruct (prefix sub (String c s)); cbn [orb].
    + split; [reflexivity | lia].
    + exact IH.
Qed.

Lemma count_contains (s sub : string) :
  sub <> EmptyString ->
  (0 < PyStr.count s sub <-> PyStr.contains sub s = true).
Proof.
  intro Hsub; unfold PyStr.count.
  destruct sub; [now elim Hsub |].
  cbn [PyStr.is_empty]; now apply count_from_contains.
Qed.

Lemma list_sum_positive (l : list nat) :
  0 < list_sum l <-> exists x, In x l /\ 0 < x.
Proof.
  induction l as [| n l IH]; cbn [list_sum fold_right].
  - split; [lia | intros (x & [] & _)].
  - fold (list_sum l). split.
    + intro H; destruct n as [| n].
      * destruct (proj1 IH H) as (x & Hx & Hpos).
        exists x; split; [now right | exact Hpos].
      * exists (S n); split; [now left | lia].
    + intros (x & [-> | Hx] & Hpos); [lia |].
      assert (0 < list_sum l) by (apply IH; now exists x). lia.
Qed.

(** A document scores above 0 exactly when one of the kept tokens occurs
    in its text, letter case set aside. *)
Lemma occurrences_positive (query : string) (d : Doc) :
  0 < occurrences query d
  <-> exists t, In t (kept_tokens query)
                /\ PyStr.contains (PyStr.lower t) (PyStr.lower (d_text d)) = true.
Proof.
  unfold occurrences; rewrite list_sum_positive; split.
  - intros (x & Hx & Hpos).
    apply in_map_iff in Hx; destruct Hx as (t & <- & Ht).
    exists t; split; [exact Ht |].
    apply count_contains; [| exact Hpos].
    unfold kept_tokens in Ht; apply filter_In in Ht; destruct Ht as [_ Hlen].
    apply Nat.ltb_lt in Hlen; rewrite <- (length_lower t) in Hlen.
    intro He; rewrite He in Hlen; simpl in Hlen; lia.
  - intros (t & Ht & Hc).
    exists (PyStr.count (PyStr.lower (d_text d)) (PyStr.lower t)).
    split; [apply in_map_iff; exists t; split; [reflexivity | exact Ht] |].
    apply count_contains; [| exact Hc].
    unfold kept_tokens in Ht; apply filter_In in Ht; destruct Ht as [_ Hlen].
    apply Nat.ltb_lt in Hlen; rewrite <- (length_lower t) in Hlen.
    intro He; rewrite He in Hlen; simpl in Hlen; lia.
Qed.

Lemma keyword_match_ranked (corpus : list Doc) (query : string) (k : nat) :
  keyword_match_in corpus query k
  = map (scored_doc query)
      (firstn k
         (map snd
            (sort_desc
               (map (fun d => (occurrences query d, d))
                  (filter (fun d => (0 <? occurrences query d)%nat) corpus))))).
Proof.
  unfold keyword_match_in.
  destruct (PyStr.is_empty query) eqn:Hq.
  - destruct query; [| discriminate Hq].
    rewrite empty_query_no_hits; cbn; now rewrite firstn_nil.
  - rewrite scored_of_hits.
    rewrite (keyed_sort_desc (occurrences query)) at 1.
    rewrite firstn_map, map_map; reflexivity.
Qed.

Lemma scored_doc_injective (query : string) (d d' : Doc) :
  scored_doc query d = scored_doc query d' -> d = d'.
Proof.
  destruct d, d'; unfold scored_doc, with_score; cbn.
  intro H; injection H; intros; subst; reflexivity.
Qed.

(** X21. When the cut-off is no smaller than the corpus (as for the
    built-in corpus of two documents and the retriever's cut-off of five),
    a document of the corpus is among the evidence exactly when one of the
    query's tokens longer than two characters occurs in its text, letter
    case set aside and also inside a longer word. *)
Theorem retrieved_iff_token_occurs (corpus : list Doc) (query : string)
  (k : nat) (d : Doc)
  (Hk : List.length corpus <= k) (Hd : In d corpus) :
  In (scored_doc query d) (keyword_match_in corpus query k)
  <-> exists t, In t (kept_tokens query)
                /\ PyStr.contains (PyStr.lower t) (PyStr.lower (d_text d)) = true.
Proof.
  rewrite <- occurrences_positive, keyword_match_ranked.
  set (hits := filter (fun d => (0 <? occurrences query d)%nat) corpus).
  set (ranked := map snd (sort_desc (map (fun d => (occurrences query d, d)) hits))).
  assert (Hperm : Permutation ranked hits).
  { unfold ranked.
    replace hits with (map snd (map (fun d => (occurrences query d, d)) hits))
      at 2 by (rewrite map_map; apply map_id).
    apply Permutation_map, sort_desc_perm. }
  assert (Hall : firstn k ranked = ranked).
  { apply firstn_all2.
    rewrite (Permutation_length Hperm); unfold hits.
    pose proof (filter_length_le
                  (fun d => (0 <? occurrences query d)%nat) corpus). lia. }
  rewrite Hall; split.
  - intro Hin; apply in_map_iff in Hin; destruct Hin as (d' & Heq & Hd').
    apply scored_doc_injective in Heq; subst d'.
    apply (Permutation_in _ Hperm) in Hd'.
    apply filter_In in Hd'; destruct Hd' as [_ Hpos].
    now apply Nat.ltb_lt.
  - intro Hpos; apply in_map.
    apply (Permutation_in _ (Permutation_sym Hperm)).
    apply filter_In; split; [exact Hd | now apply Nat.ltb_lt].
Qed.

Lemma retrieved_iff_token_occurs_witness :
  List.length CORPUS <= 5
  /\ In (nth 1 CORPUS (mkDoc "" "" "" "" [])) CORPUS
  /\ In (scored_doc "Track ENTROPY" (nth 1 CORPUS (mkDoc "" "" "" "" [])))
        (simple_keyword_match "Track ENTROPY" 5).
Proof.
  assert (Hk : List.length CORPUS <= 5) by (simpl; lia).
  assert (Hd : In (nth 1 CORPUS (mkDoc "" "" "" "" [])) CORPUS)
    by (right; left; reflexivity).
  split; [exact Hk |]. split; [exact Hd |].
  apply (retrieved_iff_token_occurs CORPUS "Track ENTROPY" 5
           (nth 1 CORPUS (mkDoc "" "" "" "" [])) Hk Hd).
  exists "Track"; split; [left; reflexivity | reflexivity].
Defined.

(** ** Records that JSON does not give back *)

Example json_texts :
  Json.dumps span_record
  = "{" ++ DQ ++ "reason" ++ DQ ++ ": " ++ DQ ++ "unfaithful" ++ DQ ++ ", "
        ++ DQ ++ "span" ++ DQ ++ ": [0, 10]}"
  /\ Json.dumps keyed_record
     = "{" ++ DQ ++ "7" ++ DQ ++ ": " ++ DQ ++ "seven" ++ DQ ++ ", "
           ++ DQ ++ "note" ++ DQ ++ ": " ++ DQ ++ "a"
           ++ String Json.backslash "n" ++ "b" ++ DQ ++ "}"
  /\ Json.loads ("  [1, -20, true, null, {}, []] " ++ LF)
     = Some (PList [PInt 1; PInt (-20); PBool true; PNone; PDict []; PList []])
  /\ Json.loads "{oops" = None
  /\ Json.loads "[1] 2" = None
  /\ Json.loads (Json.dumps span_record_read) = Some span_record_read.
Proof. vm_compute. repeat split. Qed.

